(** * alenacrm: the AI service layer (services/ai.py)

    A shallow embedding of [AIService]: the intent classifier
    [classify_message] and the four extractors [parse_supply],
    [parse_sale], [parse_client_edit] and [parse_preorder], together with
    the Pydantic models they validate the service's reply against.

    Conventions of the embedding.
    - A Python [str] is a list of Unicode code points.
    - A Python [float] is a binary64 value (Rocq's primitive floats), an
      [int] is a [Z].
    - The body of each method runs in a small monad that threads the log
      written through [logger] and carries a raised exception; the
      [try ... except Exception] of the source is [try_except].
    - The OpenAI client is an argument: a function from the request to
      either a response or a raised exception.
    - [json.loads] and the numeric parsing of strings that Pydantic does
      in lax mode are library code; they are fields of [PyRuntime]. *)

From Stdlib Require Import ZArith NArith List Bool Lia String Ascii.
From Stdlib Require Import Floats.
Import ListNotations.
Local Open Scope Z_scope.

(** ** Python strings *)

Definition pystr := list N.

(** A literal of the source, written in ASCII. *)
Definition lit (s : string) : pystr :=
  List.map N_of_ascii (list_ascii_of_string s).

Fixpoint str_eqb (a b : pystr) : bool :=
  match a, b with
  | [], [] => true
  | x :: a', y :: b' => N.eqb x y && str_eqb a' b'
  | _, _ => false
  end.

(** [x in [..]] on a list of strings. *)
Definition str_in (x : pystr) (l : list pystr) : bool :=
  existsb (str_eqb x) l.

(** [str.isspace] on one code point: the code points [str.strip()]
    removes. *)
Definition py_isspace (c : N) : bool :=
  ((9 <=? c) && (c <=? 13) || (28 <=? c) && (c <=? 32)
   || (c =? 133) || (c =? 160) || (c =? 5760)
   || (8192 <=? c) && (c <=? 8202)
   || (c =? 8232) || (c =? 8233) || (c =? 8239) || (c =? 8287)
   || (c =? 12288))%N.

Fixpoint py_lstrip (s : pystr) : pystr :=
  match s with
  | c :: s' => if py_isspace c then py_lstrip s' else s
  | [] => []
  end.

Definition py_rstrip (s : pystr) : pystr := rev (py_lstrip (rev s)).

(** [str.strip()] *)
Definition py_strip (s : pystr) : pystr := py_rstrip (py_lstrip s).

Definition is_ascii_upper (c : N) : bool := ((65 <=? c) && (c <=? 90))%N.

Definition lower_cp (c : N) : N :=
  if is_ascii_upper c then (c + 32)%N else c.

(** [str.lower()].  The case mapping is the ASCII one; the mappings of
    code points above 127 are left out.  The labels the result is compared
    with are ASCII, and the one code point above 127 that lower-cases to a
    single ASCII letter (U+212A, to k) yields a letter that occurs in none
    of them, so the membership test of [classify_message] is not affected.
    On a string of ASCII code points this is [str.lower()] itself; what
    is said of a lower-cased string elsewhere is said of such strings. *)
Definition py_lower (s : pystr) : pystr := List.map lower_cp s.

(** ["\n".join(l)] *)
Fixpoint join_lines (l : list pystr) : pystr :=
  match l with
  | [] => []
  | [x] => x
  | x :: l' => x ++ [10%N] ++ join_lines l'
  end.

(** ** Exceptions, the log and the monad of a method body *)

(** The exceptions a method body can meet.  Each is a subclass of
    [Exception], which is what the handlers of the source catch. *)
Inductive exn : Type :=
| ClientError (message : pystr)   (* raised by the OpenAI client *)
| IndexError                      (* [choices[0]] on an empty list *)
| AttributeError                  (* a method of [None] *)
| TypeError                       (* [json.loads(None)], [**] of a non-mapping *)
| JSONDecodeError
| OtherError (message : pystr)    (* anything else the library raises *)
| ValidationError.                (* Pydantic *)

Inductive Outcome (A : Type) : Type :=
| Returned (a : A)
| Raised (e : exn).
Arguments Returned {A} a.
Arguments Raised {A} e.

Inductive LogMsg : Type :=
| MsgClassified (classification : pystr)
| MsgClassificationFailed (e : exn)
| MsgParsedSupply (n_items : nat)
| MsgParsedSale (client_name : pystr) (n_items : nat)
| MsgProductMatched (name : pystr)
| MsgParsedClientEdit (client_name : pystr)
| MsgParsedPreorder (client_name : pystr) (n_items : nat)
| MsgSupplyFailed (e : exn)
| MsgSaleFailed (e : exn)
| MsgClientEditFailed (e : exn)
| MsgPreorderFailed (e : exn)
| MsgTranscriptionSuccessful (head : pystr)
| MsgTranscriptionFailed (e : exn).

Inductive LogLevel : Type := INFO | ERROR.

Definition Log := list (LogLevel * LogMsg).

Definition M (A : Type) : Type := Log -> Log * Outcome A.

Definition ret {A} (a : A) : M A := fun log => (log, Returned a).

Definition bind {A B} (m : M A) (k : A -> M B) : M B :=
  fun log =>
    match m log with
    | (log', Returned a) => k a log'
    | (log', Raised e) => (log', Raised e)
    end.

Definition lift {A} (o : Outcome A) : M A := fun log => (log, o).

Definition logger_info (m : LogMsg) : M unit :=
  fun log => (log ++ [(INFO, m)], Returned tt).

Definition logger_error (m : LogMsg) : M unit :=
  fun log => (log ++ [(ERROR, m)], Returned tt).

(** [try: body  except Exception as e: handler e] *)
Definition try_except {A} (body : M A) (handler : exn -> M A) : M A :=
  fun log =>
    match body log with
    | (log', Returned a) => (log', Returned a)
    | (log', Raised e) => handler e log'
    end.

(** [for x in l: body x] *)
Fixpoint for_each {A} (l : list A) (body : A -> M unit) : M unit :=
  match l with
  | [] => ret tt
  | x :: l' => bind (body x) (fun _ => for_each l' body)
  end.

Declare Scope py_scope.
Delimit Scope py_scope with py.
Notation "x <- c1 ;; c2" := (bind c1 (fun x => c2))
  (at level 61, c1 at next level, right associativity) : py_scope.
Notation "c1 ;; c2" := (bind c1 (fun _ => c2))
  (at level 61, right associativity) : py_scope.

(** The value a method returns, and the log it leaves. *)
Definition result_of {A} (r : Log * Outcome A) : Outcome A := snd r.
Definition log_of {A} (r : Log * Outcome A) : Log := fst r.

(** ** The chat completion client *)

(** The system prompt of each call: a fixed template, with the values the
    f-string interpolates. *)
Inductive Prompt : Type :=
| ClassifyPrompt
| SupplyPrompt (products_context : pystr)
| SalePrompt (current_date : pystr) (products_context : pystr)
| ClientEditPrompt
| PreorderPrompt.

(** The [json_schema] passed as [response_format], by its name. *)
Inductive ResponseFormat : Type :=
| supply_data | sale_data | client_edit_data | preorder_data.

Record Request : Type := mkRequest {
  model : pystr;
  system_content : Prompt;
  user_content : pystr;
  response_format : option ResponseFormat;
  temperature : Z
}.

(** [response.choices[i].message.content], which may be [None]. *)
Record Choice : Type := mkChoice { content : option pystr }.
Record Response : Type := mkResponse { choices : list Choice }.

(** [client.chat.completions.create]: it returns a response or raises. *)
Definition Service := Request -> Outcome Response.

Definition await (create : Service) (req : Request) : M Response :=
  lift (create req).

(** [l[0]] *)
Definition index0 {A} (l : list A) : Outcome A :=
  match l with
  | x :: _ => Returned x
  | [] => Raised IndexError
  end.

(** ** classify_message *)

Definition intent_labels : list pystr :=
  [lit "supply"; lit "sale"; lit "preorder"; lit "client_edit"; lit "query"].

Definition gpt_4o_mini : pystr := lit "gpt-4o-mini".

Definition classify_request (text : pystr) : Request :=
  mkRequest gpt_4o_mini ClassifyPrompt text None 0.

(** [x.strip()] where [x] may be [None] *)
Definition strip_method (x : option pystr) : Outcome pystr :=
  match x with
  | Some s => Returned (py_strip s)
  | None => Raised AttributeError
  end.

Definition classify_message (create : Service) (text : pystr) : M pystr :=
  try_except
    (response <- await create (classify_request text) ;;
     choice <- lift (index0 (choices response)) ;;
     stripped <- lift (strip_method (content choice)) ;;
     let classification := py_lower stripped in
     logger_info (MsgClassified classification) ;;
     ret (if str_in classification intent_labels
          then classification else lit "supply"))%py
    (fun e =>
       (logger_error (MsgClassificationFailed e) ;;
        ret (lit "supply"))%py).

(** ** JSON values, as [json.loads] returns them *)

#[local] Set Warnings "-register-all".

Inductive json : Type :=
| JNull
| JBool (b : bool)
| JInt (z : Z)
| JFloat (f : float)
| JStr (s : pystr)
| JArr (l : list json)
| JObj (d : list (pystr * json)).

(** A [dict] with string keys. *)
Definition dict := list (pystr * json).

(** [d.get(key)] *)
Fixpoint dict_get (d : dict) (key : pystr) : option json :=
  match d with
  | [] => None
  | (k, v) :: d' => if str_eqb k key then Some v else dict_get d' key
  end.

(** The library code the methods call into. *)
Class PyRuntime : Type := {
  json_loads : pystr -> Outcome json;
  str_as_int : pystr -> option Z;
  str_as_float : pystr -> option float
}.

(** [json.loads(x)] where [x] may be [None] *)
Definition loads `{PyRuntime} (x : option pystr) : Outcome json :=
  match x with
  | Some s => json_loads s
  | None => Raised TypeError
  end.

(** ** Pydantic validation (version 2, lax mode, Python input) *)

Definition obind {A B} (o : Outcome A) (k : A -> Outcome B) : Outcome B :=
  match o with
  | Returned a => k a
  | Raised e => Raised e
  end.

Notation "x <~ c1 ;; c2" := (obind c1 (fun x => c2))
  (at level 61, c1 at next level, right associativity) : py_scope.

Fixpoint mapM {A B} (f : A -> Outcome B) (l : list A) : Outcome (list B) :=
  match l with
  | [] => Returned []
  | x :: l' => (y <~ f x ;; ys <~ mapM f l' ;; Returned (y :: ys))%py
  end.

(** [float(z)] of an [int], rounding to nearest even. *)
Definition float_of_Z (z : Z) : float :=
  SF2Prim (binary_normalize prec emax z 0 false).

(** The integer a float is equal to, if it is one. *)
Definition integral_value (f : float) : option Z :=
  match Prim2SF f with
  | S754_zero _ => Some 0
  | S754_finite s m e =>
      let v := if s then Z.neg m else Z.pos m in
      if 0 <=? e then Some (v * 2 ^ e)
      else if Z.pos m mod 2 ^ (- e) =? 0 then Some (v / 2 ^ (- e))
      else None
  | _ => None
  end.

(** The int an [int] field takes from a float: the float has no
    fractional part and lies strictly between -2^63 and 2^63. *)
Definition Z_of_float (f : float) : option Z :=
  match integral_value f with
  | Some z => if (- 2 ^ 63 <? z) && (z <? 2 ^ 63) then Some z else None
  | None => None
  end.

Definition of_option {A} (o : option A) : Outcome A :=
  match o with
  | Some a => Returned a
  | None => Raised ValidationError
  end.

(** A field of type [str]. *)
Definition validate_str (j : json) : Outcome pystr :=
  match j with
  | JStr s => Returned s
  | _ => Raised ValidationError
  end.

(** A field of type [int]: an int, a bool, a float without fractional
    part and within the 64-bit range, or a string that parses as an int. *)
Definition validate_int `{PyRuntime} (j : json) : Outcome Z :=
  match j with
  | JInt z => Returned z
  | JBool b => Returned (if b then 1 else 0)
  | JFloat f => of_option (Z_of_float f)
  | JStr s => of_option (str_as_int s)
  | _ => Raised ValidationError
  end.

(** A field of type [float]: a float, an int in range, a bool, or a
    string that parses as a float. *)
Definition validate_float `{PyRuntime} (j : json) : Outcome float :=
  match j with
  | JFloat f => Returned f
  | JInt z =>
      let f := float_of_Z z in
      if PrimFloat.is_infinity f then Raised ValidationError else Returned f
  | JBool b => Returned (if b then 1%float else 0%float)
  | JStr s => of_option (str_as_float s)
  | _ => Raised ValidationError
  end.

(** [Field(gt=0)] on an [int] and on a [float]. *)
Definition int_gt0 (z : Z) : Outcome Z :=
  if 0 <? z then Returned z else Raised ValidationError.

Definition float_gt0 (f : float) : Outcome float :=
  if PrimFloat.ltb 0 f then Returned f else Raised ValidationError.

(** [Optional[T]] *)
Definition optional {A} (v : json -> Outcome A) (j : json)
  : Outcome (option A) :=
  match j with
  | JNull => Returned None
  | _ => (a <~ v j ;; Returned (Some a))%py
  end.

(** [List[T]] *)
Definition list_of {A} (v : json -> Outcome A) (j : json)
  : Outcome (list A) :=
  match j with
  | JArr l => mapM v l
  | _ => Raised ValidationError
  end.

(** A field whose type is a model: the value has to be a dict. *)
Definition model_of {A} (v : dict -> Outcome A) (j : json) : Outcome A :=
  match j with
  | JObj d => v d
  | _ => Raised ValidationError
  end.

(** A field without a default is required. *)
Definition required {A} (data : dict) (key : pystr)
  (v : json -> Outcome A) : Outcome A :=
  match dict_get data key with
  | Some j => v j
  | None => Raised ValidationError
  end.

(** [Field(default=a)]: the default is taken as it is. *)
Definition with_default {A} (data : dict) (key : pystr)
  (v : json -> Outcome A) (a : A) : Outcome A :=
  match dict_get data key with
  | Some j => v j
  | None => Returned a
  end.

(** The constructor call with [result] unpacked as keyword arguments:
    [result] has to be a mapping. *)
Definition construct {A} (v : dict -> Outcome A) (result : json)
  : Outcome A :=
  match result with
  | JObj d => v d
  | _ => Raised TypeError
  end.

(** ** The Pydantic models of the source *)

Module ClientEditData.
Record t : Type := mk { client_name : pystr; notes : pystr }.
End ClientEditData.

Module SupplyItem.
Record t : Type := mk {
  name : pystr;
  size : pystr;
  quantity : Z;
  price : float;
  purchase_price : float
}.
End SupplyItem.

Module SupplyData.
Record t : Type := mk { items : list SupplyItem.t }.
End SupplyData.

Module ClientInfo.
Record t : Type := mk {
  name : pystr;
  instagram : option pystr;
  telegram : option pystr;
  notes : option pystr
}.
End ClientInfo.

Module SaleInfo.
Record t : Type := mk {
  item_name : pystr;
  size : pystr;
  quantity : Z;
  price : float
}.
End SaleInfo.

Module ReminderInfo.
Record t : Type := mk { days_from_now : Z; text : pystr }.
End ReminderInfo.

Module SaleData.
Record t : Type := mk {
  client : ClientInfo.t;
  items : list SaleInfo.t;
  reminder : option ReminderInfo.t
}.
End SaleData.

Module PreorderItem.
Record t : Type := mk {
  item_name : pystr;
  quantity : Z;
  description : option pystr
}.
End PreorderItem.

Module PreorderData.
Record t : Type := mk {
  client_name : pystr;
  items : list PreorderItem.t;
  notes : option pystr
}.
End PreorderData.

Section Validation.
Context `{PyRuntime}.

Definition validate_ClientEditData (data : dict)
  : Outcome ClientEditData.t :=
  (client_name <~ required data (lit "client_name") validate_str ;;
   notes <~ required data (lit "notes") validate_str ;;
   Returned (ClientEditData.mk client_name notes))%py.

Definition validate_SupplyItem (data : dict) : Outcome SupplyItem.t :=
  (name <~ required data (lit "name") validate_str ;;
   size <~ required data (lit "size") validate_str ;;
   quantity <~ required data (lit "quantity")
     (fun j => z <~ validate_int j ;; int_gt0 z) ;;
   price <~ with_default data (lit "price") validate_float 0%float ;;
   purchase_price <~
     with_default data (lit "purchase_price") validate_float 0%float ;;
   Returned (SupplyItem.mk name size quantity price purchase_price))%py.

Definition validate_SupplyData (data : dict) : Outcome SupplyData.t :=
  (items <~ required data (lit "items")
     (list_of (model_of validate_SupplyItem)) ;;
   Returned (SupplyData.mk items))%py.

Definition validate_ClientInfo (data : dict) : Outcome ClientInfo.t :=
  (name <~ required data (lit "name") validate_str ;;
   instagram <~
     with_default data (lit "instagram") (optional validate_str) None ;;
   telegram <~
     with_default data (lit "telegram") (optional validate_str) None ;;
   notes <~ with_default data (lit "notes") (optional validate_str) None ;;
   Returned (ClientInfo.mk name instagram telegram notes))%py.

Definition validate_SaleInfo (data : dict) : Outcome SaleInfo.t :=
  (item_name <~ required data (lit "item_name") validate_str ;;
   size <~ required data (lit "size") validate_str ;;
   quantity <~ required data (lit "quantity")
     (fun j => z <~ validate_int j ;; int_gt0 z) ;;
   price <~ required data (lit "price")
     (fun j => f <~ validate_float j ;; float_gt0 f) ;;
   Returned (SaleInfo.mk item_name size quantity price))%py.

Definition validate_ReminderInfo (data : dict) : Outcome ReminderInfo.t :=
  (days_from_now <~ required data (lit "days_from_now") validate_int ;;
   text <~ required data (lit "text") validate_str ;;
   Returned (ReminderInfo.mk days_from_now text))%py.

Definition validate_SaleData (data : dict) : Outcome SaleData.t :=
  (client <~ required data (lit "client") (model_of validate_ClientInfo) ;;
   items <~ required data (lit "items")
     (list_of (model_of validate_SaleInfo)) ;;
   reminder <~ with_default data (lit "reminder")
     (optional (model_of validate_ReminderInfo)) None ;;
   Returned (SaleData.mk client items reminder))%py.

Definition validate_PreorderItem (data : dict) : Outcome PreorderItem.t :=
  (item_name <~ required data (lit "item_name") validate_str ;;
   quantity <~ required data (lit "quantity")
     (fun j => z <~ validate_int j ;; int_gt0 z) ;;
   description <~
     with_default data (lit "description") (optional validate_str) None ;;
   Returned (PreorderItem.mk item_name quantity description))%py.

Definition validate_PreorderData (data : dict) : Outcome PreorderData.t :=
  (client_name <~ required data (lit "client_name") validate_str ;;
   items <~ required data (lit "items")
     (list_of (model_of validate_PreorderItem)) ;;
   notes <~ with_default data (lit "notes") (optional validate_str) None ;;
   Returned (PreorderData.mk client_name items notes))%py.

End Validation.

(** ** The extractors *)

(** The product list interpolated into the system prompt. *)
Definition products_context (existing_products : list pystr) : pystr :=
  match existing_products with
  | [] => lit "No existing products"
  | _ => join_lines (List.map (fun p => lit "- " ++ p) existing_products)
  end.

Definition supply_request (text : pystr) (existing_products : list pystr)
  : Request :=
  mkRequest gpt_4o_mini (SupplyPrompt (products_context existing_products))
    text (Some supply_data) 0.

Definition sale_request (text current_date : pystr)
  (existing_products : list pystr) : Request :=
  mkRequest gpt_4o_mini
    (SalePrompt current_date (products_context existing_products))
    text (Some sale_data) 0.

Definition client_edit_request (text : pystr) : Request :=
  mkRequest gpt_4o_mini ClientEditPrompt text (Some client_edit_data) 0.

Definition preorder_request (text : pystr) : Request :=
  mkRequest gpt_4o_mini PreorderPrompt text (Some preorder_data) 0.

Section Extractors.
Context `{PyRuntime}.

Definition parse_supply (create : Service) (text : pystr)
  (existing_products : list pystr) : M (option SupplyData.t) :=
  try_except
    (response <- await create (supply_request text existing_products) ;;
     choice <- lift (index0 (choices response)) ;;
     result <- lift (loads (content choice)) ;;
     supply_data <- lift (construct validate_SupplyData result) ;;
     logger_info
       (MsgParsedSupply (List.length (SupplyData.items supply_data))) ;;
     for_each (SupplyData.items supply_data)
       (fun item => logger_info (MsgProductMatched (SupplyItem.name item))) ;;
     ret (Some supply_data))%py
    (fun e => (logger_error (MsgSupplyFailed e) ;; ret None)%py).

Definition parse_sale (create : Service) (text current_date : pystr)
  (existing_products : list pystr) : M (option SaleData.t) :=
  try_except
    (response <-
       await create (sale_request text current_date existing_products) ;;
     choice <- lift (index0 (choices response)) ;;
     result <- lift (loads (content choice)) ;;
     sale_data <- lift (construct validate_SaleData result) ;;
     logger_info
       (MsgParsedSale (ClientInfo.name (SaleData.client sale_data))
          (List.length (SaleData.items sale_data))) ;;
     for_each (SaleData.items sale_data)
       (fun item =>
          logger_info (MsgProductMatched (SaleInfo.item_name item))) ;;
     ret (Some sale_data))%py
    (fun e => (logger_error (MsgSaleFailed e) ;; ret None)%py).

Definition parse_client_edit (create : Service) (text : pystr)
  : M (option ClientEditData.t) :=
  try_except
    (response <- await create (client_edit_request text) ;;
     choice <- lift (index0 (choices response)) ;;
     result <- lift (loads (content choice)) ;;
     client_edit_data <- lift (construct validate_ClientEditData result) ;;
     logger_info
       (MsgParsedClientEdit
          (ClientEditData.client_name client_edit_data)) ;;
     ret (Some client_edit_data))%py
    (fun e => (logger_error (MsgClientEditFailed e) ;; ret None)%py).

Definition parse_preorder (create : Service) (text : pystr)
  : M (option PreorderData.t) :=
  try_except
    (response <- await create (preorder_request text) ;;
     choice <- lift (index0 (choices response)) ;;
     result <- lift (loads (content choice)) ;;
     preorder_data <- lift (construct validate_PreorderData result) ;;
     logger_info
       (MsgParsedPreorder (PreorderData.client_name preorder_data)
          (List.length (PreorderData.items preorder_data))) ;;
     ret (Some preorder_data))%py
    (fun e => (logger_error (MsgPreorderFailed e) ;; ret None)%py).

(** The JSON value a method works on: what [json.loads] makes of the
    content of the first choice of the service's reply. *)
Definition reply_json (reply : Outcome Response) : Outcome json :=
  (response <~ reply ;;
   choice <~ index0 (choices response) ;;
   loads (content choice))%py.

(** What an extractor returns, given the service's reply. *)
Definition extracted {A} (v : dict -> Outcome A) (reply : Outcome Response)
  : option A :=
  match (result <~ reply_json reply ;; construct v result)%py with
  | Returned a => Some a
  | Raised _ => None
  end.

End Extractors.

(** ** What a validated record satisfies *)

Definition SupplyItem_valid (it : SupplyItem.t) : Prop :=
  0 < SupplyItem.quantity it.

Definition SupplyData_valid (d : SupplyData.t) : Prop :=
  Forall SupplyItem_valid (SupplyData.items d).

Definition SaleInfo_valid (it : SaleInfo.t) : Prop :=
  0 < SaleInfo.quantity it /\ PrimFloat.ltb 0 (SaleInfo.price it) = true.

Definition SaleData_valid (d : SaleData.t) : Prop :=
  Forall SaleInfo_valid (SaleData.items d).

Definition PreorderItem_valid (it : PreorderItem.t) : Prop :=
  0 < PreorderItem.quantity it.

Definition PreorderData_valid (d : PreorderData.t) : Prop :=
  Forall PreorderItem_valid (PreorderData.items d).

(** A record, when there is one, is a validated one. *)
Definition valid_or_none {A} (valid : A -> Prop) (r : option A) : Prop :=
  match r with
  | Some a => valid a
  | None => True
  end.

(** The failure kinds the specification names (section 7).  The source
    has no counterpart: an extractor that fails returns [None]. *)
Inductive FailureKind : Type :=
| ServiceError | SchemaViolation | EmptyResult | MissingField | MissingPrice.

(** ** Readings of the service's reply used in the statements *)

(** The raw content of the first choice, when the service returned one. *)
Definition reply_token (reply : Outcome Response) : option pystr :=
  match reply with
  | Returned response =>
      match choices response with
      | choice :: _ => content choice
      | [] => None
      end
  | Raised _ => None
  end.

(** A reply whose first choice has the given content. *)
Definition reply_with (s : pystr) : Outcome Response :=
  Returned (mkResponse [mkChoice (Some s)]).

Definition is_ascii_lower (c : N) : bool := ((97 <=? c) && (c <=? 122))%N.

(** A character of a label: a lower-case letter or the underscore. *)
Definition label_char (d : N) : bool := is_ascii_lower d || (d =? 95)%N.

(** [c] is the letter [d] in either case. *)
Definition case_variant (c d : N) : Prop :=
  c = d \/ (is_ascii_lower d = true /\ c = (d - 32)%N).

(** ** Readings of the reply's JSON used in the statements *)

Section Readings.
Context `{PyRuntime}.

(** The [items] array of the JSON object the service replied with. *)
Definition reply_items (reply : Outcome Response) : option (list json) :=
  match reply_json reply with
  | Returned (JObj d) =>
      match dict_get d (lit "items") with
      | Some (JArr l) => Some l
      | _ => None
      end
  | _ => None
  end.

(** The [client] object of the JSON object the service replied with. *)
Definition reply_client (reply : Outcome Response) : option dict :=
  match reply_json reply with
  | Returned (JObj d) =>
      match dict_get d (lit "client") with
      | Some (JObj c) => Some c
      | _ => None
      end
  | _ => None
  end.

(** The JSON object the service replied with. *)
Definition reply_object (reply : Outcome Response) : option dict :=
  match reply_json reply with
  | Returned (JObj d) => Some d
  | _ => None
  end.

End Readings.

(** An item that states no price: the key is absent, or its value is
    [null], zero, or a float that is not above zero. *)
Definition price_unresolved (j : json) : bool :=
  match j with
  | JObj d =>
      match dict_get d (lit "price") with
      | None | Some JNull => true
      | Some (JInt z) => z =? 0
      | Some (JFloat f) => negb (PrimFloat.ltb 0 f)
      | Some _ => false
      end
  | _ => false
  end.

(** An item whose quantity is an integer that is zero or negative. *)
Definition quantity_not_positive (j : json) : bool :=
  match j with
  | JObj d =>
      match dict_get d (lit "quantity") with
      | Some (JInt z) => z <=? 0
      | _ => false
      end
  | _ => false
  end.

(** The float field [key] of a record built from [d] holds [f]: 0 when
    the key is absent; the float of the reply as it is; the float of the
    same value when the reply writes an integer; 1 or 0 for a boolean;
    the float a string parses to.  No other value gives a record. *)
Definition float_field_from `{PyRuntime} (d : dict) (key : pystr) (f : float)
  : Prop :=
  match dict_get d key with
  | None => f = 0%float
  | Some (JFloat x) => f = x
  | Some (JInt z) => f = float_of_Z z
  | Some (JBool b) => f = if b then 1%float else 0%float
  | Some (JStr s) => str_as_float s = Some f
  | Some _ => False
  end.

Definition supply_prices_from `{PyRuntime} (j : json) (it : SupplyItem.t)
  : Prop :=
  exists d, j = JObj d
    /\ float_field_from d (lit "price") (SupplyItem.price it)
    /\ float_field_from d (lit "purchase_price")
         (SupplyItem.purchase_price it).

(** The preorder item carries the name the reply states. *)
Definition preorder_name_from (j : json) (it : PreorderItem.t) : Prop :=
  exists d, j = JObj d
    /\ dict_get d (lit "item_name") = Some (JStr (PreorderItem.item_name it)).

(** ** Sample runs *)

Local Open Scope string_scope.
Local Open Scope list_scope.

(** JSON text, written with an apostrophe where the text has a double
    quote. *)
Definition json_text (s : string) : pystr :=
  List.map (fun c => if (c =? 39)%N then 34%N else c) (lit s).

Definition str (s : string) : json := JStr (lit s).

Definition obj (fields : list (string * json)) : json :=
  JObj (List.map (fun kv => (lit (fst kv), snd kv)) fields).

(** The texts of the replies used in the sample runs. *)
Definition supply_empty_text : pystr :=
  json_text
    "{'items': []}".

Definition supply_zero_quantity_text : pystr :=
  json_text
    "{'items': [{'name': 'Top', 'size': 'M', 'quantity': 0, 'price': 0, 'purchase_price': 0}, {'name': 'Slip', 'size': 'S', 'quantity': 5, 'price': 0, 'purchase_price': 0}]}".

Definition supply_negative_price_text : pystr :=
  json_text
    "{'items': [{'name': 'Slip', 'size': 'S', 'quantity': 5, 'price': -5, 'purchase_price': -1}]}".

Definition supply_no_price_text : pystr :=
  json_text
    "{'items': [{'name': 'Slip', 'size': 'S', 'quantity': 5}]}".

Definition sale_ok_text : pystr :=
  json_text
    "{'client': {'name': 'Anna', 'instagram': null, 'telegram': null, 'notes': null}, 'items': [{'item_name': 'Top', 'size': 'M', 'quantity': 1, 'price': 40}], 'reminder': null}".

Definition sale_no_price_text : pystr :=
  json_text
    "{'client': {'name': 'Anna', 'instagram': null, 'telegram': null, 'notes': null}, 'items': [{'item_name': 'Top', 'size': 'M', 'quantity': 1}], 'reminder': null}".

Definition sale_empty_name_text : pystr :=
  json_text
    "{'client': {'name': '', 'instagram': null, 'telegram': null, 'notes': null}, 'items': [{'item_name': 'Top', 'size': 'M', 'quantity': 1, 'price': 40}], 'reminder': null}".

Definition sale_no_name_text : pystr :=
  json_text
    "{'client': {'instagram': null, 'telegram': null, 'notes': null}, 'items': [], 'reminder': null}".

Definition preorder_empty_items_text : pystr :=
  json_text
    "{'client_name': 'Anna', 'items': [], 'notes': null}".

Definition preorder_ok_text : pystr :=
  json_text
    "{'client_name': 'Anna', 'items': [{'item_name': 'red top', 'quantity': 2, 'description': null}], 'notes': null}".

Definition preorder_no_client_text : pystr :=
  json_text
    "{'items': [], 'notes': null}".

Definition client_edit_ok_text : pystr :=
  json_text
    "{'client_name': 'Anna', 'notes': 'likes red'}".

(** Each text with the value [json.loads] returns on it. *)
Definition sample_replies : list (pystr * json) :=
  [ (supply_empty_text,
     obj [("items", JArr [])]);
    (supply_zero_quantity_text,
     obj [("items", JArr
        [ obj [("name", str "Top"); ("size", str "M"); ("quantity", JInt 0);
               ("price", JInt 0); ("purchase_price", JInt 0)];
          obj [("name", str "Slip"); ("size", str "S"); ("quantity", JInt 5);
               ("price", JInt 0); ("purchase_price", JInt 0)] ])]);
    (supply_negative_price_text,
     obj [("items", JArr
        [ obj [("name", str "Slip"); ("size", str "S"); ("quantity", JInt 5);
               ("price", JInt (-5)); ("purchase_price", JInt (-1))] ])]);
    (supply_no_price_text,
     obj [("items", JArr
        [ obj [("name", str "Slip"); ("size", str "S");
               ("quantity", JInt 5)] ])]);
    (sale_ok_text,
     obj [("client", obj [("name", str "Anna"); ("instagram", JNull);
                          ("telegram", JNull); ("notes", JNull)]);
          ("items", JArr
             [ obj [("item_name", str "Top"); ("size", str "M");
                    ("quantity", JInt 1); ("price", JInt 40)] ]);
          ("reminder", JNull)]);
    (sale_no_price_text,
     obj [("client", obj [("name", str "Anna"); ("instagram", JNull);
                          ("telegram", JNull); ("notes", JNull)]);
          ("items", JArr
             [ obj [("item_name", str "Top"); ("size", str "M");
                    ("quantity", JInt 1)] ]);
          ("reminder", JNull)]);
    (sale_empty_name_text,
     obj [("client", obj [("name", str ""); ("instagram", JNull);
                          ("telegram", JNull); ("notes", JNull)]);
          ("items", JArr
             [ obj [("item_name", str "Top"); ("size", str "M");
                    ("quantity", JInt 1); ("price", JInt 40)] ]);
          ("reminder", JNull)]);
    (sale_no_name_text,
     obj [("client", obj [("instagram", JNull); ("telegram", JNull);
                          ("notes", JNull)]);
          ("items", JArr []); ("reminder", JNull)]);
    (preorder_empty_items_text,
     obj [("client_name", str "Anna"); ("items", JArr []);
          ("notes", JNull)]);
    (preorder_ok_text,
     obj [("client_name", str "Anna");
          ("items", JArr
             [ obj [("item_name", str "red top"); ("quantity", JInt 2);
                    ("description", JNull)] ]);
          ("notes", JNull)]);
    (preorder_no_client_text,
     obj [("items", JArr []); ("notes", JNull)]);
    (client_edit_ok_text,
     obj [("client_name", str "Anna"); ("notes", str "likes red")]) ].

Fixpoint table_get (t : list (pystr * json)) (s : pystr) : Outcome json :=
  match t with
  | [] => Raised JSONDecodeError
  | (k, v) :: t' => if str_eqb k s then Returned v else table_get t' s
  end.

(** A runtime for the sample runs: its [json_loads] is [json.loads] on
    the texts of [sample_replies] and is used on no other JSON text; no
    sample has a number written as a string. *)
Definition sample_runtime : PyRuntime := {|
  json_loads := table_get sample_replies;
  str_as_int := fun _ => None;
  str_as_float := fun _ => None
|}.

(** A service that answers every request with the same content. *)
Definition always (s : pystr) : Service := fun _ => reply_with s.

(** A service that is down. *)
Definition unreachable : Service :=
  fun _ => Raised (ClientError (lit "connection error")).

Definition sample_text : pystr := lit "Anna bought a top M for 40".
Definition sample_date : pystr := lit "2024-05-01".
Definition sample_products : list pystr := [lit "Top"; lit "Slip"].

(** ** transcribe_audio *)

(** [open(audio_file_path, 'rb')]: the open file, or the exception. *)
Definition FileSystem (File : Type) : Type := pystr -> Outcome File.

(** [client.audio.transcriptions.create]: the [text] of the transcript
    it returns, which may be [None], or the exception. *)
Definition Transcriber (File : Type) : Type := File -> Outcome (option pystr).

(** [x[:100]] where [x] may be [None] *)
Definition slice_100 (x : option pystr) : Outcome pystr :=
  match x with
  | Some s => Returned (firstn 100 s)
  | None => Raised TypeError
  end.

Definition transcribe_audio {File : Type} (open_rb : FileSystem File)
  (create : Transcriber File) (audio_file_path : pystr)
  : M (option pystr) :=
  try_except
    (audio_file <- lift (open_rb audio_file_path) ;;
     text <- lift (create audio_file) ;;
     head <- lift (slice_100 text) ;;
     logger_info (MsgTranscriptionSuccessful head) ;;
     ret text)%py
    (fun e => (logger_error (MsgTranscriptionFailed e) ;; ret None)%py).

(** ** config.py *)

(** [sep.join(l)] *)
Fixpoint str_join (sep : pystr) (l : list pystr) : pystr :=
  match l with
  | [] => []
  | [x] => x
  | x :: l' => x ++ sep ++ str_join sep l'
  end.

(** [s.split(',')] *)
Fixpoint split_comma (s : pystr) : list pystr :=
  match s with
  | [] => [[]]
  | c :: s' =>
      if (c =? 44)%N then [] :: split_comma s'
      else match split_comma s' with
           | piece :: pieces => (c :: piece) :: pieces
           | [] => [[c]]
           end
  end.

Module Config.

(** What the methods of [Config] raise.  [InvalidLiteral s] is the
    [ValueError] that [int(s)] raises; [ValueError] is one raised by the
    class itself, with its message. *)
Inductive error : Type :=
| ValueError (message : pystr)
| InvalidLiteral (s : pystr)
| AttributeError.

Inductive result (A : Type) : Type :=
| Ok (a : A)
| Raise (e : error).
Arguments Ok {A} a.
Arguments Raise {A} e.

(** The class attributes, read from the environment when the class body
    runs. *)
Record t : Type := mk {
  BOT_TOKEN : option pystr;
  ALLOWED_USER_IDS : option pystr;
  OPENAI_API_KEY : option pystr;
  GOOGLE_SHEETS_CREDENTIALS_BASE64 : option pystr;
  GOOGLE_SHEET_KEY : option pystr;
  TIMEZONE : pystr
}.

(** [os.getenv(name)] and [os.getenv(name, default)] *)
Definition load (getenv : pystr -> option pystr) : t :=
  mk (getenv (lit "BOT_TOKEN"))
     (getenv (lit "ALLOWED_USER_IDS"))
     (getenv (lit "OPENAI_API_KEY"))
     (getenv (lit "GOOGLE_SHEETS_CREDENTIALS_BASE64"))
     (getenv (lit "GOOGLE_SHEET_KEY"))
     (match getenv (lit "TIMEZONE") with
      | Some v => v
      | None => lit "Europe/Moscow"
      end).

(** [not x] for an optional string: unset or empty. *)
Definition falsy (x : option pystr) : bool :=
  match x with
  | None | Some [] => true
  | Some (_ :: _) => false
  end.

(** The list [missing] that [validate] builds. *)
Definition missing (c : t) : list pystr :=
  let missing := [] in
  let missing :=
    if falsy (BOT_TOKEN c) then missing ++ [lit "BOT_TOKEN"] else missing in
  let missing :=
    if falsy (ALLOWED_USER_IDS c)
    then missing ++ [lit "ALLOWED_USER_IDS"] else missing in
  let missing :=
    if falsy (OPENAI_API_KEY c)
    then missing ++ [lit "OPENAI_API_KEY"] else missing in
  let missing :=
    if falsy (GOOGLE_SHEETS_CREDENTIALS_BASE64 c)
    then missing ++ [lit "GOOGLE_SHEETS_CREDENTIALS_BASE64"] else missing in
  let missing :=
    if falsy (GOOGLE_SHEET_KEY c)
    then missing ++ [lit "GOOGLE_SHEET_KEY"] else missing in
  missing.

(** [[id.strip() for id in cls.ALLOWED_USER_IDS.split(',')]] *)
Definition stripped_ids (c : t) : result (list pystr) :=
  match ALLOWED_USER_IDS c with
  | Some s => Ok (List.map py_strip (split_comma s))
  | None => Raise AttributeError
  end.

Section WithInt.
(** [int(s)] of a string: the integer, or [None] when it raises
    [ValueError]. *)
Variable py_int : pystr -> option Z.

(** [for user_id in user_ids: int(user_id)] *)
Fixpoint check_ints (user_ids : list pystr) : result unit :=
  match user_ids with
  | [] => Ok tt
  | user_id :: rest =>
      match py_int user_id with
      | Some _ => check_ints rest
      | None => Raise (InvalidLiteral user_id)
      end
  end.

(** [[int(user_id) for user_id in user_ids]] *)
Fixpoint ints_of (user_ids : list pystr) : result (list Z) :=
  match user_ids with
  | [] => Ok []
  | user_id :: rest =>
      match py_int user_id with
      | Some z =>
          match ints_of rest with
          | Ok zs => Ok (z :: zs)
          | Raise e => Raise e
          end
      | None => Raise (InvalidLiteral user_id)
      end
  end.

(** [validate]: it returns after writing one line to the log, or raises;
    [except ValueError] catches the error of [int] and no other. *)
Definition validate (c : t) : list (LogLevel * pystr) * result unit :=
  match missing c with
  | _ :: _ =>
      ([], Raise (ValueError
                    (lit "Missing required environment variables: "
                     ++ str_join (lit ", ") (missing c))))
  | [] =>
      match
        match stripped_ids c with
        | Ok user_ids => check_ints user_ids
        | Raise e => Raise e
        end
      with
      | Ok _ =>
          ([(INFO, lit "Configuration validated successfully")], Ok tt)
      | Raise (ValueError _) | Raise (InvalidLiteral _) =>
          ([], Raise (ValueError
                        (lit "ALLOWED_USER_IDS must be comma-separated integers")))
      | Raise AttributeError => ([], Raise AttributeError)
      end
  end.

Definition get_allowed_user_ids (c : t) : result (list Z) :=
  match stripped_ids c with
  | Ok user_ids => ints_of user_ids
  | Raise e => Raise e
  end.

(** [user_id in cls.get_allowed_user_ids()] *)
Definition is_user_allowed (c : t) (user_id : Z) : result bool :=
  match get_allowed_user_ids c with
  | Ok ids => Ok (existsb (Z.eqb user_id) ids)
  | Raise e => Raise e
  end.

End WithInt.

(** The required variables, in the order [validate] tests them. *)
Definition required_variables (c : t) : list (pystr * option pystr) :=
  [ (lit "BOT_TOKEN", BOT_TOKEN c);
    (lit "ALLOWED_USER_IDS", ALLOWED_USER_IDS c);
    (lit "OPENAI_API_KEY", OPENAI_API_KEY c);
    (lit "GOOGLE_SHEETS_CREDENTIALS_BASE64",
     GOOGLE_SHEETS_CREDENTIALS_BASE64 c);
    (lit "GOOGLE_SHEET_KEY", GOOGLE_SHEET_KEY c) ].

End Config.

(** ** More readings of the reply's JSON *)

(** The string the object holds under [key]. *)
Definition str_field_from (d : dict) (key : pystr) (s : pystr) : Prop :=
  dict_get d key = Some (JStr s).

(** The optional string the object holds under [key]: the string as it
    is, and [None] when the key is absent or its value is [null]. *)
Definition opt_str_field_from (d : dict) (key : pystr) (o : option pystr)
  : Prop :=
  match dict_get d key with
  | None | Some JNull => o = None
  | Some (JStr s) => o = Some s
  | Some _ => False
  end.

(** The integer the object holds under [key], when it is written as one. *)
Definition int_field_from (d : dict) (key : pystr) (z : Z) : Prop :=
  match dict_get d key with
  | Some (JInt x) => z = x
  | Some _ => True
  | None => False
  end.

Definition supply_item_from (j : json) (it : SupplyItem.t) : Prop :=
  exists d, j = JObj d
    /\ str_field_from d (lit "name") (SupplyItem.name it)
    /\ str_field_from d (lit "size") (SupplyItem.size it)
    /\ int_field_from d (lit "quantity") (SupplyItem.quantity it).

Definition sale_item_from (j : json) (it : SaleInfo.t) : Prop :=
  exists d, j = JObj d
    /\ str_field_from d (lit "item_name") (SaleInfo.item_name it)
    /\ str_field_from d (lit "size") (SaleInfo.size it)
    /\ int_field_from d (lit "quantity") (SaleInfo.quantity it).

(** The reminder of a sale, read off the reply's object. *)
Definition reminder_from (d : dict) (o : option ReminderInfo.t) : Prop :=
  match dict_get d (lit "reminder") with
  | None | Some JNull => o = None
  | Some (JObj rd) =>
      exists rem, o = Some rem
        /\ str_field_from rd (lit "text") (ReminderInfo.text rem)
        /\ int_field_from rd (lit "days_from_now")
             (ReminderInfo.days_from_now rem)
  | Some _ => False
  end.

(** The field names of the four top-level models. *)
Definition SupplyData_fields : list pystr := [lit "items"].
Definition SaleData_fields : list pystr :=
  [lit "client"; lit "items"; lit "reminder"].
Definition ClientEditData_fields : list pystr :=
  [lit "client_name"; lit "notes"].
Definition PreorderData_fields : list pystr :=
  [lit "client_name"; lit "items"; lit "notes"].

(** [int] on strings of ASCII digits with an optional minus sign, for the
    sample runs. *)
Fixpoint digits_value (acc : Z) (s : pystr) : option Z :=
  match s with
  | [] => Some acc
  | c :: s' =>
      if ((48 <=? c) && (c <=? 57))%N
      then digits_value (10 * acc + Z.of_N (c - 48)) s'
      else None
  end.

Definition ascii_int (s : pystr) : option Z :=
  match s with
  | [] => None
  | c :: s' =>
      if (c =? 45)%N
      then match s' with
           | [] => None
           | _ => option_map Z.opp (digits_value 0 s')
           end
      else digits_value 0 s
  end.

Definition sample_config : Config.t :=
  Config.mk (Some (lit "token")) (Some (lit "12, 34 ,56"))
    (Some (lit "key")) (Some (lit "e30=")) (Some (lit "sheet"))
    (lit "Europe/Moscow").

(** A code point of ASCII. *)
Definition is_ascii (c : N) : bool := (c <? 128)%N.

(** Further replies for the sample runs. *)
Definition sale_no_items_text : pystr :=
  json_text
    "{'client': {'name': 'Anna'}, 'items': []}".

Definition sale_reminder_text : pystr :=
  json_text
    "{'reminder': {'days_from_now': -3, 'text': 'call'}, 'client': {'name': 'Anna'}, 'items': []}".

Definition extra_replies : list (pystr * json) :=
  [ (sale_no_items_text,
     obj [("client", obj [("name", str "Anna")]); ("items", JArr [])]);
    (sale_reminder_text,
     obj [("reminder", obj [("days_from_now", JInt (-3));
                            ("text", str "call")]);
          ("client", obj [("name", str "Anna")]); ("items", JArr [])]);
    (client_edit_ok_text,
     obj [("client_name", str "Anna"); ("notes", str "likes red")]) ].

(** A second runtime for the sample runs, as [sample_runtime] but on the
    texts of [extra_replies]. *)
Definition extra_runtime : PyRuntime := {|
  json_loads := table_get extra_replies;
  str_as_int := fun _ => None;
  str_as_float := fun _ => None
|}.

(** * Properties *)

Local Open Scope Z_scope.

(** ** Strings *)

Lemma str_eqb_eq (a b : pystr) : str_eqb a b = true <-> a = b.
Proof.
  revert b; induction a as [|x a IH]; intros [|y b]; simpl;
    try (split; [discriminate | discriminate]); try tauto.
  rewrite andb_true_iff, N.eqb_eq, IH.
  split; [intros [-> ->]; reflexivity | intros E; injection E; auto].
Qed.

Lemma str_eqb_refl (a : pystr) : str_eqb a a = true.
Proof. apply str_eqb_eq; reflexivity. Qed.

Lemma str_in_In (x : pystr) (l : list pystr) :
  str_in x l = true -> In x l.
Proof.
  unfold str_in; rewrite existsb_exists.
  intros (y & Hy & E). apply str_eqb_eq in E. subst; assumption.
Qed.

Lemma In_str_in (x : pystr) (l : list pystr) :
  In x l -> str_in x l = true.
Proof.
  intros Hx. unfold str_in; rewrite existsb_exists.
  exists x; split; [assumption | apply str_eqb_refl].
Qed.

Lemma py_lstrip_spaces (ws s : pystr) :
  forallb py_isspace ws = true -> py_lstrip (ws ++ s) = py_lstrip s.
Proof.
  induction ws as [|c ws IH]; simpl; [reflexivity|].
  rewrite andb_true_iff; intros [-> Hws]; auto.
Qed.

Lemma py_lstrip_id (c : N) (s : pystr) :
  py_isspace c = false -> py_lstrip (c :: s) = c :: s.
Proof. simpl; intros ->; reflexivity. Qed.

(** Stripping removes the white space around a text that neither starts
    nor ends with white space. *)
Lemma py_strip_spaces (ws1 tok ws2 : pystr) :
  forallb py_isspace ws1 = true ->
  forallb py_isspace ws2 = true ->
  tok <> [] ->
  Forall (fun c => py_isspace c = false) tok ->
  py_strip (ws1 ++ tok ++ ws2) = tok.
Proof.
  intros H1 H2 Hne Htok. unfold py_strip, py_rstrip.
  rewrite py_lstrip_spaces by assumption.
  destruct tok as [|c tok]; [contradiction|].
  inversion Htok as [|? ? Hc Hrest]; subst.
  change ((c :: tok) ++ ws2) with (c :: (tok ++ ws2)).
  rewrite py_lstrip_id by assumption.
  change (c :: tok ++ ws2) with ((c :: tok) ++ ws2).
  rewrite rev_app_distr, py_lstrip_spaces.
  - assert (Hrev : Forall (fun c => py_isspace c = false) (rev (c :: tok))).
    { apply Forall_rev; assumption. }
    destruct (rev (c :: tok)) as [|d r] eqn:E.
    + apply (f_equal (@rev N)) in E. rewrite rev_involutive in E.
      discriminate.
    + inversion Hrev; subst. rewrite py_lstrip_id by assumption.
      rewrite <- E. apply rev_involutive.
  - rewrite forallb_forall in *. intros x Hx. apply H2.
    apply in_rev; assumption.
Qed.

Lemma is_ascii_range (lo hi c : N) :
  ((lo <=? c) && (c <=? hi))%N = true <-> (lo <= c <= hi)%N.
Proof. rewrite andb_true_iff, !N.leb_le; tauto. Qed.

(** Letters, digits and the underscore are not white space. *)
Lemma not_space_word (c : N) : (48 <= c <= 122)%N -> py_isspace c = false.
Proof.
  intros Hc. unfold py_isspace.
  repeat match goal with
  | |- context [(?a <=? ?b)%N] => destruct (N.leb_spec a b)
  | |- context [(?a =? ?b)%N] => destruct (N.eqb_spec a b)
  end; simpl; try reflexivity; lia.
Qed.

Lemma case_variant_lower (c d : N) :
  label_char d = true -> case_variant c d ->
  lower_cp c = d /\ py_isspace c = false.
Proof.
  unfold label_char, case_variant, is_ascii_lower, lower_cp, is_ascii_upper.
  rewrite orb_true_iff, is_ascii_range, N.eqb_eq.
  intros Hd [-> | [Hl ->]].
  - split; [|apply not_space_word; lia].
    destruct ((65 <=? d) && (d <=? 90))%N eqn:E; [|reflexivity].
    apply is_ascii_range in E. lia.
  - split; [|apply not_space_word; lia].
    destruct ((65 <=? d - 32) && (d - 32 <=? 90))%N eqn:E; [lia|].
    assert (Hr : (65 <= d - 32 <= 90)%N) by lia.
    apply is_ascii_range in Hr. congruence.
Qed.

Lemma case_variants_lower (tok label : pystr) :
  forallb label_char label = true -> Forall2 case_variant tok label ->
  py_lower tok = label /\ Forall (fun c => py_isspace c = false) tok.
Proof.
  intros Hl Hv; induction Hv as [|c d tok label Hcd _ IH]; simpl.
  - split; [reflexivity | constructor].
  - simpl in Hl. apply andb_true_iff in Hl as [Hd Hl].
    destruct (case_variant_lower c d Hd Hcd) as [-> Hc].
    destruct (IH Hl) as [E Hs].
    split; [unfold py_lower in *; simpl; congruence
           | constructor; assumption].
Qed.

Lemma intent_labels_chars (label : pystr) :
  In label intent_labels -> forallb label_char label = true /\ label <> [].
Proof.
  unfold intent_labels; simpl.
  intros [<- | [<- | [<- | [<- | [<- | []]]]]];
    (split; [vm_compute; reflexivity | discriminate]).
Qed.

(** ** Running a method *)

Lemma for_each_logger_info {A} (l : list A) (f : A -> LogMsg) (log : Log) :
  for_each l (fun x => logger_info (f x)) log
  = (log ++ List.map (fun x => (INFO, f x)) l, Returned tt).
Proof.
  revert log; induction l as [|x l IH]; intros log; simpl.
  - unfold ret. rewrite app_nil_r. reflexivity.
  - unfold bind, logger_info at 1. rewrite IH, <- app_assoc. reflexivity.
Qed.

Lemma for_each_log {A} (l : list A) (f : A -> LogMsg) (log : Log) :
  for_each l (fun x log0 => (log0 ++ [(INFO, f x)], Returned tt)) log
  = (log ++ List.map (fun x => (INFO, f x)) l, Returned tt).
Proof. apply (for_each_logger_info l f log). Qed.

Ltac run_method :=
  unfold extracted, reply_json, try_except, bind, await, lift, obind,
    logger_info, logger_error, ret, result_of;
  repeat match goal with
  | |- context [for_each _ _ _] => rewrite for_each_log
  | |- context [match ?o with Returned _ => _ | Raised _ => _ end] =>
      destruct o; simpl
  | |- exists _, (?l, _) = _ => exists l; reflexivity
  | |- exists _, _ => eexists; reflexivity
  end.

Section Runs.
Context `{PyRuntime}.

(** Each extractor returns what [extracted] reads off the reply of the
    service to the one request it sends; nothing is raised. *)
Lemma parse_supply_run create text existing_products log :
  exists log',
    parse_supply create text existing_products log
    = (log', Returned (extracted validate_SupplyData
                         (create (supply_request text existing_products)))).
Proof. unfold parse_supply. run_method. Qed.

Lemma parse_sale_run create text current_date existing_products log :
  exists log',
    parse_sale create text current_date existing_products log
    = (log', Returned
         (extracted validate_SaleData
            (create (sale_request text current_date existing_products)))).
Proof. unfold parse_sale. run_method. Qed.

Lemma parse_client_edit_run create text log :
  exists log',
    parse_client_edit create text log
    = (log', Returned (extracted validate_ClientEditData
                         (create (client_edit_request text)))).
Proof. unfold parse_client_edit. run_method. Qed.

Lemma parse_preorder_run create text log :
  exists log',
    parse_preorder create text log
    = (log', Returned (extracted validate_PreorderData
                         (create (preorder_request text)))).
Proof. unfold parse_preorder. run_method. Qed.

End Runs.

(** ** Validation *)

Ltac inv_obind H :=
  repeat match type of H with
  | obind ?o _ = Returned _ =>
      let E := fresh "E" in
      destruct o eqn:E; simpl in H; [|discriminate H]
  end.

Lemma mapM_Forall2 {A B} (f : A -> Outcome B) (l : list A) (ys : list B) :
  mapM f l = Returned ys -> Forall2 (fun x y => f x = Returned y) l ys.
Proof.
  revert ys; induction l as [|x l IH]; simpl; intros ys Hm.
  - injection Hm as <-. constructor.
  - inv_obind Hm. injection Hm as <-. constructor; auto.
Qed.

(** One element that does not validate makes the list fail. *)
Lemma mapM_raises {A B} (f : A -> Outcome B) (l : list A) (x : A) :
  In x l -> (forall y, f x <> Returned y) ->
  forall ys, mapM f l <> Returned ys.
Proof.
  intros Hin Hx ys Hm. apply mapM_Forall2 in Hm.
  induction Hm as [|x' y l ys Hxy _ IH]; [contradiction|].
  destruct Hin as [-> | Hin]; [exact (Hx y Hxy) | auto].
Qed.

Lemma int_gt0_Returned (z q : Z) : int_gt0 z = Returned q -> q = z /\ 0 < q.
Proof.
  unfold int_gt0. destruct (0 <? z) eqn:E; [|discriminate].
  intros [= <-]. apply Z.ltb_lt in E. auto.
Qed.

Lemma float_gt0_Returned (f p : float) :
  float_gt0 f = Returned p -> p = f /\ PrimFloat.ltb 0 p = true.
Proof.
  unfold float_gt0. destruct (PrimFloat.ltb 0 f) eqn:E; [|discriminate].
  intros [= <-]. auto.
Qed.

Section ValidationFacts.
Context `{PyRuntime}.

Lemma required_quantity (d : dict) (q : Z) :
  required d (lit "quantity") (fun j => z <~ validate_int j ;; int_gt0 z)%py
  = Returned q -> 0 < q.
Proof.
  unfold required. destruct (dict_get d (lit "quantity")); [|discriminate].
  intros Hq. inv_obind Hq. apply int_gt0_Returned in Hq. tauto.
Qed.

Lemma with_default_float (d : dict) (key : pystr) (f : float) :
  with_default d key validate_float 0%float = Returned f ->
  float_field_from d key f.
Proof.
  unfold with_default, float_field_from.
  destruct (dict_get d key) as [[| |z| |s| |]|]; simpl; intros E;
    try discriminate E; try (injection E; auto; fail).
  - destruct (PrimFloat.is_infinity (float_of_Z z)); [discriminate E|].
    injection E; auto.
  - destruct (str_as_float s); [|discriminate E]. injection E as <-.
    reflexivity.
Qed.

Lemma validate_SupplyItem_Returned (d : dict) (it : SupplyItem.t) :
  validate_SupplyItem d = Returned it ->
  SupplyItem_valid it /\ supply_prices_from (JObj d) it.
Proof.
  unfold validate_SupplyItem, SupplyItem_valid, supply_prices_from.
  intros Hv. inv_obind Hv. injection Hv as <-. simpl. split.
  - eapply required_quantity; eassumption.
  - exists d. repeat split; apply with_default_float; assumption.
Qed.

Lemma validate_SupplyData_Returned (d : dict) (r : SupplyData.t) :
  validate_SupplyData d = Returned r ->
  exists l, dict_get d (lit "items") = Some (JArr l)
    /\ mapM (model_of validate_SupplyItem) l = Returned (SupplyData.items r).
Proof.
  unfold validate_SupplyData, required. intros Hv. inv_obind Hv.
  injection Hv as <-. simpl.
  destruct (dict_get d (lit "items")) as [[]|]; try discriminate.
  simpl in E. eauto.
Qed.

Lemma model_of_SupplyItem (j : json) (it : SupplyItem.t) :
  model_of validate_SupplyItem j = Returned it ->
  SupplyItem_valid it /\ supply_prices_from j it.
Proof.
  destruct j; try discriminate. apply validate_SupplyItem_Returned.
Qed.

Lemma validate_SaleInfo_Returned (d : dict) (it : SaleInfo.t) :
  validate_SaleInfo d = Returned it -> SaleInfo_valid it.
Proof.
  unfold validate_SaleInfo, SaleInfo_valid.
  intros Hv. inv_obind Hv. injection Hv as <-. simpl. split.
  - eapply required_quantity; eassumption.
  - unfold required in E2.
    destruct (dict_get d (lit "price")); [|discriminate].
    inv_obind E2. apply float_gt0_Returned in E2. tauto.
Qed.

Lemma model_of_SaleInfo (j : json) (it : SaleInfo.t) :
  model_of validate_SaleInfo j = Returned it -> SaleInfo_valid it.
Proof.
  destruct j; try discriminate. apply validate_SaleInfo_Returned.
Qed.

(** An item that states no price does not validate as a [SaleInfo]. *)
Lemma price_unresolved_raises (j : json) :
  price_unresolved j = true ->
  forall it, model_of validate_SaleInfo j <> Returned it.
Proof.
  intros Hp it Hv. destruct j as [| | | | | |d]; try discriminate.
  simpl in Hv. unfold validate_SaleInfo in Hv. inv_obind Hv.
  unfold required in E2. simpl in Hp.
  destruct (dict_get d (lit "price")) as [[| |z|f| | |]|];
    try discriminate; simpl in E2.
  - apply Z.eqb_eq in Hp. subst z. vm_compute in E2. discriminate.
  - unfold float_gt0 in E2. apply negb_true_iff in Hp. rewrite Hp in E2.
    discriminate.
Qed.

Lemma validate_SaleData_Returned (d : dict) (r : SaleData.t) :
  validate_SaleData d = Returned r ->
  (exists l, dict_get d (lit "items") = Some (JArr l)
     /\ mapM (model_of validate_SaleInfo) l = Returned (SaleData.items r))
  /\ (exists c, dict_get d (lit "client") = Some (JObj c)
        /\ dict_get c (lit "name")
           = Some (JStr (ClientInfo.name (SaleData.client r)))).
Proof.
  unfold validate_SaleData, required. intros Hv. inv_obind Hv.
  injection Hv as <-. simpl. split.
  - destruct (dict_get d (lit "items")) as [[]|]; try discriminate.
    simpl in E0. eauto.
  - destruct (dict_get d (lit "client")) as [[| | | | | |c]|];
      try discriminate.
    exists c. split; [reflexivity|].
    simpl in E. unfold validate_ClientInfo, required in E. inv_obind E.
    injection E as <-. simpl.
    destruct (dict_get c (lit "name")) as [[]|]; try discriminate.
    simpl in E2. congruence.
Qed.

Lemma validate_PreorderItem_Returned (d : dict) (it : PreorderItem.t) :
  validate_PreorderItem d = Returned it ->
  PreorderItem_valid it /\ preorder_name_from (JObj d) it.
Proof.
  unfold validate_PreorderItem, PreorderItem_valid, preorder_name_from.
  intros Hv. inv_obind Hv. injection Hv as <-. simpl. split.
  - eapply required_quantity; eassumption.
  - exists d. split; [reflexivity|]. unfold required in E.
    destruct (dict_get d (lit "item_name")) as [[]|]; try discriminate.
    simpl in E. congruence.
Qed.

Lemma model_of_PreorderItem (j : json) (it : PreorderItem.t) :
  model_of validate_PreorderItem j = Returned it ->
  PreorderItem_valid it /\ preorder_name_from j it.
Proof.
  destruct j; try discriminate. apply validate_PreorderItem_Returned.
Qed.

Lemma validate_PreorderData_Returned (d : dict) (r : PreorderData.t) :
  validate_PreorderData d = Returned r ->
  dict_get d (lit "client_name") = Some (JStr (PreorderData.client_name r))
  /\ exists l, dict_get d (lit "items") = Some (JArr l)
       /\ mapM (model_of validate_PreorderItem) l
          = Returned (PreorderData.items r).
Proof.
  unfold validate_PreorderData, required. intros Hv. inv_obind Hv.
  injection Hv as <-. simpl. split.
  - destruct (dict_get d (lit "client_name")) as [[]|]; try discriminate.
    simpl in E. congruence.
  - destruct (dict_get d (lit "items")) as [[]|]; try discriminate.
    simpl in E0. eauto.
Qed.

(** A successful extraction comes from a reply that is a JSON object
    which validates. *)
Lemma extracted_Some {A} (v : dict -> Outcome A) reply (a : A) :
  extracted v reply = Some a ->
  exists d, reply_json reply = Returned (JObj d) /\ v d = Returned a.
Proof.
  unfold extracted, obind.
  destruct (reply_json reply) as [[| | | | | |d]|]; simpl; try discriminate.
  destruct (v d) eqn:E; [|discriminate]. intros [= <-]. eauto.
Qed.

Lemma extracted_None {A} (v : dict -> Outcome A) reply (d : dict) :
  reply_json reply = Returned (JObj d) ->
  (forall a, v d <> Returned a) -> extracted v reply = None.
Proof.
  unfold extracted, obind. intros -> Hv. simpl.
  destruct (v d) as [a|e]; [exfalso; apply (Hv a); reflexivity | reflexivity].
Qed.

Lemma Forall2_right {A B} (P : A -> B -> Prop) (Q : B -> Prop) l ys :
  Forall2 P l ys -> (forall x y, P x y -> Q y) -> Forall Q ys.
Proof. induction 1; intros HPQ; constructor; eauto. Qed.

Lemma Forall2_weaken {A B} (P P' : A -> B -> Prop) l ys :
  Forall2 P l ys -> (forall x y, P x y -> P' x y) -> Forall2 P' l ys.
Proof. induction 1; intros HP; constructor; eauto. Qed.

End ValidationFacts.

(** ** What each method returns *)

Section Results.
Context `{PyRuntime}.

Lemma parse_supply_result create text existing_products log :
  result_of (parse_supply create text existing_products log)
  = Returned (extracted validate_SupplyData
                (create (supply_request text existing_products))).
Proof.
  destruct (parse_supply_run create text existing_products log) as [l ->].
  reflexivity.
Qed.

Lemma parse_sale_result create text current_date existing_products log :
  result_of (parse_sale create text current_date existing_products log)
  = Returned
      (extracted validate_SaleData
         (create (sale_request text current_date existing_products))).
Proof.
  destruct (parse_sale_run create text current_date existing_products log)
    as [l ->].
  reflexivity.
Qed.

Lemma parse_client_edit_result create text log :
  result_of (parse_client_edit create text log)
  = Returned (extracted validate_ClientEditData
                (create (client_edit_request text))).
Proof.
  destruct (parse_client_edit_run create text log) as [l ->]. reflexivity.
Qed.

Lemma parse_preorder_result create text log :
  result_of (parse_preorder create text log)
  = Returned (extracted validate_PreorderData
                (create (preorder_request text))).
Proof.
  destruct (parse_preorder_run create text log) as [l ->]. reflexivity.
Qed.

Lemma extracted_SupplyData_valid reply :
  valid_or_none SupplyData_valid (extracted validate_SupplyData reply).
Proof.
  destruct (extracted validate_SupplyData reply) as [r|] eqn:E; simpl; auto.
  apply extracted_Some in E as (d & _ & Hv).
  apply validate_SupplyData_Returned in Hv as (l & _ & Hm).
  apply mapM_Forall2 in Hm. unfold SupplyData_valid.
  eapply Forall2_right; [exact Hm|].
  intros j it Hj. apply model_of_SupplyItem in Hj. tauto.
Qed.

Lemma extracted_SaleData_valid reply :
  valid_or_none SaleData_valid (extracted validate_SaleData reply).
Proof.
  destruct (extracted validate_SaleData reply) as [r|] eqn:E; simpl; auto.
  apply extracted_Some in E as (d & _ & Hv).
  apply validate_SaleData_Returned in Hv as ((l & _ & Hm) & _).
  apply mapM_Forall2 in Hm. unfold SaleData_valid.
  eapply Forall2_right; [exact Hm|].
  intros j it Hj. apply model_of_SaleInfo in Hj. assumption.
Qed.

Lemma extracted_PreorderData_valid reply :
  valid_or_none PreorderData_valid (extracted validate_PreorderData reply).
Proof.
  destruct (extracted validate_PreorderData reply) as [r|] eqn:E; simpl; auto.
  apply extracted_Some in E as (d & _ & Hv).
  apply validate_PreorderData_Returned in Hv as (_ & l & _ & Hm).
  apply mapM_Forall2 in Hm. unfold PreorderData_valid.
  eapply Forall2_right; [exact Hm|].
  intros j it Hj. apply model_of_PreorderItem in Hj. tauto.
Qed.

End Results.

(** ** The intent classifier *)

Arguments str_in : simpl never.
Arguments py_strip : simpl never.
Arguments py_lower : simpl never.

(** C1.  For every input text and every behaviour of the service,
    [classify_message] returns, without raising, one of the five labels
    supply, sale, preorder, client_edit, query.  The label is supply when
    the service call raises, when the reply has no content to read, and
    when the token of the reply, once normalised by the method, is none
    of the five labels. *)
Theorem classify_message_total (create : Service) (text : pystr) (log : Log) :
  exists log' label,
    classify_message create text log = (log', Returned label)
    /\ In label intent_labels
    /\ ((exists e, create (classify_request text) = Raised e) ->
        label = lit "supply")
    /\ (reply_token (create (classify_request text)) = None ->
        label = lit "supply")
    /\ (forall token,
          reply_token (create (classify_request text)) = Some token ->
          str_in (py_lower (py_strip token)) intent_labels = false ->
          label = lit "supply").
Proof.
  assert (Hsupply : In (lit "supply") intent_labels) by (left; reflexivity).
  unfold classify_message, try_except, bind, await, lift, logger_info,
    logger_error, ret, reply_token.
  destruct (create (classify_request text)) as [response|e]; simpl;
    [destruct (choices response) as [|choice rest]; simpl;
     [|destruct (content choice) as [token|]; simpl;
       [destruct (str_in (py_lower (py_strip token)) intent_labels) eqn:E|]]
    |];
    do 2 eexists; (split; [reflexivity|]); (split; [|split; [|split]]);
    first [ solve [auto]
          | solve [apply (str_in_In _ intent_labels); assumption]
          | solve [intros [e' He]; discriminate He]
          | solve [intros Hn; discriminate Hn]
          | solve [intros token' [= <-] E'; congruence] ].
Qed.

Lemma classify_message_total_witness :
  exists log' label,
    classify_message unreachable sample_text [] = (log', Returned label)
    /\ label = lit "supply".
Proof.
  destruct (classify_message_total unreachable sample_text [])
    as (log' & label & Hrun & _ & Hraise & _).
  exists log', label. split; [exact Hrun|].
  apply Hraise. eexists. reflexivity.
Defined.

(** C10.  [classify_message] strips the reply and lower-cases it before
    the membership test: a reply that is a label written in any letter
    case, with any white space around it, is classified as that label. *)
Theorem classify_message_normalizes (create : Service) (text : pystr)
  (ws1 tok ws2 label : pystr) (rest : list Choice) (log : Log) :
  In label intent_labels ->
  Forall2 case_variant tok label ->
  forallb py_isspace ws1 = true ->
  forallb py_isspace ws2 = true ->
  create (classify_request text)
  = Returned (mkResponse (mkChoice (Some (ws1 ++ tok ++ ws2)) :: rest)) ->
  result_of (classify_message create text log) = Returned label.
Proof.
  intros Hlabel Hcase Hws1 Hws2 Hreply.
  destruct (intent_labels_chars label Hlabel) as [Hchars Hne].
  destruct (case_variants_lower tok label Hchars Hcase) as [Hlower Hns].
  assert (Htok : tok <> []).
  { intros ->. inversion Hcase; subst. apply Hne; reflexivity. }
  unfold classify_message, try_except, bind, await, lift, logger_info, ret,
    result_of.
  rewrite Hreply. simpl.
  rewrite (py_strip_spaces ws1 tok ws2 Hws1 Hws2 Htok Hns), Hlower.
  rewrite (In_str_in label intent_labels Hlabel). reflexivity.
Qed.

Lemma classify_message_normalizes_witness :
  result_of (classify_message (always (lit "SALE" ++ [10%N])) sample_text [])
  = Returned (lit "sale").
Proof.
  apply (classify_message_normalizes (always (lit "SALE" ++ [10%N]))
           sample_text [] (lit "SALE") [10%N] (lit "sale") [] []).
  - right; left; reflexivity.
  - repeat constructor; right; split; reflexivity.
  - reflexivity.
  - reflexivity.
  - reflexivity.
Defined.

(** ** The extractors *)

(** An item whose quantity is zero or negative does not validate as a
    [SupplyItem]. *)
Lemma quantity_not_positive_raises `{PyRuntime} (j : json) :
  quantity_not_positive j = true ->
  forall it, model_of validate_SupplyItem j <> Returned it.
Proof.
  intros Hq it Hv. destruct j as [| | | | | |d]; try discriminate.
  change (validate_SupplyItem d = Returned it) in Hv.
  unfold validate_SupplyItem in Hv. inv_obind Hv.
  unfold quantity_not_positive in Hq. unfold required in E1.
  destruct (dict_get d (lit "quantity")) as [[| |z| | | |]|];
    try discriminate.
  simpl in E1. apply int_gt0_Returned in E1. apply Z.leb_le in Hq. lia.
Qed.

(** C9.  Each extractor is a function of its arguments and of the reply of
    the service to the one request built from them: two services that
    answer that request alike give the same result, whatever else they do
    and whatever the log held before. *)
Theorem extractors_deterministic `{PyRuntime} (create1 create2 : Service)
  (text current_date : pystr) (existing_products : list pystr)
  (log1 log2 : Log) :
  (forall req,
     In req [supply_request text existing_products;
             sale_request text current_date existing_products;
             client_edit_request text;
             preorder_request text] ->
     create1 req = create2 req) ->
  result_of (parse_supply create1 text existing_products log1)
  = result_of (parse_supply create2 text existing_products log2)
  /\ result_of (parse_sale create1 text current_date existing_products log1)
     = result_of (parse_sale create2 text current_date existing_products log2)
  /\ result_of (parse_client_edit create1 text log1)
     = result_of (parse_client_edit create2 text log2)
  /\ result_of (parse_preorder create1 text log1)
     = result_of (parse_preorder create2 text log2).
Proof.
  intros Hsame.
  rewrite !parse_supply_result, !parse_sale_result,
    !parse_client_edit_result, !parse_preorder_result.
  rewrite !Hsame by (simpl; tauto). auto.
Qed.

Lemma extractors_deterministic_witness :
  result_of (@parse_sale sample_runtime (always sale_ok_text) sample_text
               sample_date sample_products [])
  = result_of (@parse_sale sample_runtime (always sale_ok_text) sample_text
                 sample_date sample_products [(INFO, MsgParsedSupply 0)]).
Proof.
  apply (@extractors_deterministic sample_runtime (always sale_ok_text)
           (always sale_ok_text) sample_text sample_date sample_products
           [] [(INFO, MsgParsedSupply 0)]).
  intros req _. reflexivity.
Defined.

(** C5, as the code has it.  Whatever the service does (it raises, it
    returns no content, text that is not JSON, or JSON that does not fit
    the model), each of [parse_supply], [parse_sale], [parse_client_edit]
    and [parse_preorder] returns: either a record that passed validation
    or [None], the one failure value, which tells no kind.  No exception
    leaves the method. *)
Theorem extractors_never_raise `{PyRuntime} (create : Service)
  (text current_date : pystr) (existing_products : list pystr) (log : Log) :
  (exists log' r,
     parse_supply create text existing_products log = (log', Returned r)
     /\ valid_or_none SupplyData_valid r)
  /\ (exists log' r,
        parse_sale create text current_date existing_products log
        = (log', Returned r)
        /\ valid_or_none SaleData_valid r)
  /\ (exists log' r,
        parse_client_edit create text log = (log', Returned r))
  /\ (exists log' r,
        parse_preorder create text log = (log', Returned r)
        /\ valid_or_none PreorderData_valid r).
Proof.
  repeat split.
  - destruct (parse_supply_run create text existing_products log) as [l E].
    do 2 eexists. split; [exact E | apply extracted_SupplyData_valid].
  - destruct (parse_sale_run create text current_date existing_products log)
      as [l E].
    do 2 eexists. split; [exact E | apply extracted_SaleData_valid].
  - destruct (parse_client_edit_run create text log) as [l E].
    do 2 eexists. exact E.
  - destruct (parse_preorder_run create text log) as [l E].
    do 2 eexists. split; [exact E | apply extracted_PreorderData_valid].
Qed.

(** The readings of a reply that led to a record. *)
Lemma extracted_reply_object `{PyRuntime} {A} (v : dict -> Outcome A)
  reply (a : A) :
  extracted v reply = Some a ->
  exists d, reply_object reply = Some d /\ v d = Returned a.
Proof.
  intros E. apply extracted_Some in E as (d & Hj & Hv).
  exists d. unfold reply_object. rewrite Hj. auto.
Qed.

Lemma reply_object_json `{PyRuntime} reply (d : dict) :
  reply_object reply = Some d -> reply_json reply = Returned (JObj d).
Proof.
  unfold reply_object.
  destruct (reply_json reply) as [[]|]; try discriminate. congruence.
Qed.

Lemma reply_items_object `{PyRuntime} reply (l : list json) :
  reply_items reply = Some l ->
  exists d, reply_object reply = Some d
    /\ dict_get d (lit "items") = Some (JArr l).
Proof.
  unfold reply_items, reply_object.
  destruct (reply_json reply) as [[| | | | | |d]|]; try discriminate.
  destruct (dict_get d (lit "items")) as [[]|] eqn:E; try discriminate.
  intros [= <-]. eauto.
Qed.

Lemma object_reply_items `{PyRuntime} reply (d : dict) (l : list json) :
  reply_object reply = Some d ->
  dict_get d (lit "items") = Some (JArr l) ->
  reply_items reply = Some l.
Proof.
  intros Hd Hi. apply reply_object_json in Hd.
  unfold reply_items. rewrite Hd, Hi. reflexivity.
Qed.

Lemma reply_client_object `{PyRuntime} reply (c : dict) :
  reply_client reply = Some c ->
  exists d, reply_object reply = Some d
    /\ dict_get d (lit "client") = Some (JObj c).
Proof.
  unfold reply_client, reply_object.
  destruct (reply_json reply) as [[| | | | | |d]|]; try discriminate.
  destruct (dict_get d (lit "client")) as [[]|] eqn:E; try discriminate.
  intros [= <-]. eauto.
Qed.

(** *** parse_sale: prices *)

(** C2, as the code has it.  In every successful [parse_sale] result each
    line item has a price above 0.  When an item of the reply states no
    price (the key is absent, or its value is null, zero, or a float not
    above zero) the method returns [None]: it does not succeed with a zero
    or defaulted price.  [None] is the only failure value and names no
    kind. *)
Theorem parse_sale_prices_positive `{PyRuntime} (create : Service)
  (text current_date : pystr) (existing_products : list pystr) (log : Log) :
  (forall r,
     result_of (parse_sale create text current_date existing_products log)
     = Returned (Some r) ->
     Forall (fun it => PrimFloat.ltb 0 (SaleInfo.price it) = true)
       (SaleData.items r))
  /\ (forall l,
        reply_items
          (create (sale_request text current_date existing_products))
        = Some l ->
        existsb price_unresolved l = true ->
        result_of (parse_sale create text current_date existing_products log)
        = Returned None).
Proof.
  rewrite parse_sale_result. split.
  - intros r [= E].
    pose proof (extracted_SaleData_valid
                  (create (sale_request text current_date existing_products)))
      as Hv.
    rewrite E in Hv. simpl in Hv. unfold SaleData_valid in Hv.
    eapply Forall_impl; [|exact Hv]. intros it [_ Hp]. exact Hp.
  - intros l Hl Hex. f_equal.
    apply reply_items_object in Hl as (d & Hd & Hi).
    apply reply_object_json in Hd.
    apply (extracted_None _ _ d Hd).
    intros r Hr. apply validate_SaleData_Returned in Hr as ((l' & Hi' & Hm) & _).
    rewrite Hi in Hi'. injection Hi' as <-.
    apply existsb_exists in Hex as (j & Hin & Hp).
    exact (mapM_raises _ l j Hin (price_unresolved_raises j Hp) _ Hm).
Qed.

Lemma parse_sale_prices_positive_witness :
  Forall (fun it => PrimFloat.ltb 0 (SaleInfo.price it) = true)
    [SaleInfo.mk (lit "Top") (lit "M") 1 40%float]
  /\ result_of (@parse_sale sample_runtime (always sale_no_price_text)
                  sample_text sample_date sample_products [])
     = Returned None.
Proof.
  split.
  - apply (proj1 (@parse_sale_prices_positive sample_runtime
                    (always sale_ok_text) sample_text sample_date
                    sample_products [])
             (SaleData.mk
                (ClientInfo.mk (lit "Anna") None None None)
                [SaleInfo.mk (lit "Top") (lit "M") 1 40%float] None)).
    vm_compute. reflexivity.
  - apply (proj2 (@parse_sale_prices_positive sample_runtime
                    (always sale_no_price_text) sample_text sample_date
                    sample_products [])
             [obj [("item_name", str "Top"); ("size", str "M");
                   ("quantity", JInt 1)]]).
    + vm_compute. reflexivity.
    + vm_compute. reflexivity.
Defined.

(** C2, as the specification has it, fails: a missing price and an
    unreachable service give the same value, [None], so the result of
    [parse_sale] tells no failure kind, [MissingPrice] or other. *)
Lemma parse_sale_failure_has_no_kind :
  result_of (@parse_sale sample_runtime (always sale_no_price_text)
               sample_text sample_date sample_products [])
  = Returned None
  /\ result_of (@parse_sale sample_runtime unreachable
                  sample_text sample_date sample_products [])
     = Returned None
  /\ ~ (exists kind : Outcome (option SaleData.t) -> FailureKind,
          kind (result_of (@parse_sale sample_runtime
                             (always sale_no_price_text)
                             sample_text sample_date sample_products []))
          = MissingPrice
          /\ kind (result_of (@parse_sale sample_runtime unreachable
                                sample_text sample_date sample_products []))
             = ServiceError).
Proof.
  assert (E1 : result_of (@parse_sale sample_runtime
                            (always sale_no_price_text)
                            sample_text sample_date sample_products [])
               = Returned None) by (vm_compute; reflexivity).
  assert (E2 : result_of (@parse_sale sample_runtime unreachable
                            sample_text sample_date sample_products [])
               = Returned None) by (vm_compute; reflexivity).
  rewrite E1, E2. repeat split.
  intros (kind & H1 & H2). congruence.
Qed.

(** *** parse_supply: the items list *)

Lemma parse_supply_success `{PyRuntime} (create : Service) (text : pystr)
  (existing_products : list pystr) (log : Log) (r : SupplyData.t) :
  result_of (parse_supply create text existing_products log)
  = Returned (Some r) ->
  exists l,
    reply_items (create (supply_request text existing_products)) = Some l
    /\ Forall2 (fun j it => model_of validate_SupplyItem j = Returned it)
         l (SupplyData.items r).
Proof.
  rewrite parse_supply_result. intros [= E].
  apply extracted_reply_object in E as (d & Hd & Hv).
  apply validate_SupplyData_Returned in Hv as (l & Hi & Hm).
  exists l. split; [eapply object_reply_items; eassumption|].
  apply mapM_Forall2; assumption.
Qed.

(** C3, as the code has it.  A successful [parse_supply] result may have
    an empty items list.  Success means that the reply is a JSON object
    whose items array validates element by element: the result has one
    item for each element of the array, none is dropped, and each has a
    quantity above 0.  When the reply is no JSON object (the service
    raised, returned no content or text that is not JSON) the method
    returns [None], which names no failure kind. *)
Theorem parse_supply_success_shape `{PyRuntime} (create : Service)
  (text : pystr) (existing_products : list pystr) (log : Log) :
  (forall r,
     result_of (parse_supply create text existing_products log)
     = Returned (Some r) ->
     exists l,
       reply_items (create (supply_request text existing_products)) = Some l
       /\ List.length (SupplyData.items r) = List.length l
       /\ Forall SupplyItem_valid (SupplyData.items r))
  /\ (reply_object (create (supply_request text existing_products)) = None ->
      result_of (parse_supply create text existing_products log)
      = Returned None).
Proof.
  split.
  - intros r Hr. apply parse_supply_success in Hr as (l & Hl & Hall).
    exists l. split; [assumption|]. split.
    + symmetry. eapply Forall2_length; eassumption.
    + eapply Forall2_right; [exact Hall|].
      intros j it Hj. apply model_of_SupplyItem in Hj. tauto.
  - rewrite parse_supply_result. intros Hnone. f_equal.
    destruct (extracted validate_SupplyData
                (create (supply_request text existing_products)))
      as [r|] eqn:E; [|reflexivity].
    apply extracted_reply_object in E as (d & Hd & _). congruence.
Qed.

Lemma parse_supply_success_shape_witness :
  (exists l,
     @reply_items sample_runtime
       (always supply_no_price_text
          (supply_request sample_text sample_products))
     = Some l
     /\ List.length [SupplyItem.mk (lit "Slip") (lit "S") 5 0%float 0%float]
        = List.length l
     /\ Forall SupplyItem_valid
          [SupplyItem.mk (lit "Slip") (lit "S") 5 0%float 0%float])
  /\ result_of (@parse_supply sample_runtime unreachable sample_text
                  sample_products [])
     = Returned None.
Proof.
  split.
  - apply (proj1 (@parse_supply_success_shape sample_runtime
                    (always supply_no_price_text) sample_text
                    sample_products [])
             (SupplyData.mk
                [SupplyItem.mk (lit "Slip") (lit "S") 5 0%float 0%float])).
    vm_compute. reflexivity.
  - apply (proj2 (@parse_supply_success_shape sample_runtime unreachable
                    sample_text sample_products [])).
    vm_compute. reflexivity.
Defined.

(** C3, as the specification has it, fails: a reply with an empty items
    array is a success with an empty items list. *)
Lemma parse_supply_accepts_empty_items :
  result_of (@parse_supply sample_runtime (always supply_empty_text)
               sample_text sample_products [])
  = Returned (Some (SupplyData.mk [])).
Proof. vm_compute. reflexivity. Qed.

(** C4, as the code has it.  Items with a quantity of zero or less are
    not excluded: when the items array of the reply holds one, validation
    fails for the whole reply and [parse_supply] returns [None], also when
    other items have a quantity above 0. *)
Theorem parse_supply_zero_quantity_fails `{PyRuntime} (create : Service)
  (text : pystr) (existing_products : list pystr) (log : Log)
  (l : list json) :
  reply_items (create (supply_request text existing_products)) = Some l ->
  existsb quantity_not_positive l = true ->
  result_of (parse_supply create text existing_products log) = Returned None.
Proof.
  intros Hl Hex. rewrite parse_supply_result. f_equal.
  apply reply_items_object in Hl as (d & Hd & Hi).
  apply reply_object_json in Hd.
  apply (extracted_None _ _ d Hd).
  intros r Hr. apply validate_SupplyData_Returned in Hr as (l' & Hi' & Hm).
  rewrite Hi in Hi'. injection Hi' as <-.
  apply existsb_exists in Hex as (j & Hin & Hq).
  exact (mapM_raises _ l j Hin (quantity_not_positive_raises j Hq) _ Hm).
Qed.

Lemma parse_supply_zero_quantity_fails_witness :
  result_of (@parse_supply sample_runtime (always supply_zero_quantity_text)
               sample_text sample_products [])
  = Returned None.
Proof.
  apply (@parse_supply_zero_quantity_fails sample_runtime
           (always supply_zero_quantity_text) sample_text sample_products []
           [ obj [("name", str "Top"); ("size", str "M");
                  ("quantity", JInt 0); ("price", JInt 0);
                  ("purchase_price", JInt 0)];
             obj [("name", str "Slip"); ("size", str "S");
                  ("quantity", JInt 5); ("price", JInt 0);
                  ("purchase_price", JInt 0)] ]).
  - vm_compute. reflexivity.
  - vm_compute. reflexivity.
Defined.

(** C4, as the specification has it, fails: of two items, one with
    quantity 0 and one with quantity 5, the second is not returned; the
    whole extraction fails. *)
Lemma parse_supply_rejects_zero_quantity :
  result_of (@parse_supply sample_runtime (always supply_zero_quantity_text)
               sample_text sample_products [])
  = Returned None
  /\ result_of (@parse_supply sample_runtime
                  (always supply_zero_quantity_text)
                  sample_text sample_products [])
     <> Returned
          (Some (SupplyData.mk
                   [SupplyItem.mk (lit "Slip") (lit "S") 5 0%float 0%float])).
Proof. split; [vm_compute; reflexivity | vm_compute; discriminate]. Qed.

(** *** parse_supply: prices *)

(** C6, as the code has it.  In every successful [parse_supply] result
    the sale price and the purchase price of each item are the numbers of
    the reply as they are, with no lower bound: a float is taken as it
    is, an integer becomes the float of the same value.  Each is 0 when
    its key is absent from the reply; both may be 0. *)
Theorem parse_supply_prices_from_reply `{PyRuntime} (create : Service)
  (text : pystr) (existing_products : list pystr) (log : Log)
  (r : SupplyData.t) :
  result_of (parse_supply create text existing_products log)
  = Returned (Some r) ->
  exists l,
    reply_items (create (supply_request text existing_products)) = Some l
    /\ Forall2 supply_prices_from l (SupplyData.items r).
Proof.
  intros Hr. apply parse_supply_success in Hr as (l & Hl & Hall).
  exists l. split; [assumption|].
  eapply Forall2_weaken; [exact Hall|].
  intros j it Hj. apply model_of_SupplyItem in Hj. tauto.
Qed.

Lemma parse_supply_prices_from_reply_witness :
  (exists l,
     @reply_items sample_runtime
       (always supply_no_price_text
          (supply_request sample_text sample_products))
     = Some l
     /\ Forall2 (@supply_prices_from sample_runtime) l
          [SupplyItem.mk (lit "Slip") (lit "S") 5 0%float 0%float])
  /\ (exists l,
        @reply_items sample_runtime
          (always supply_negative_price_text
             (supply_request sample_text sample_products))
        = Some l
        /\ Forall2 (@supply_prices_from sample_runtime) l
             [SupplyItem.mk (lit "Slip") (lit "S") 5 (-5)%float
                (-1)%float]).
Proof.
  split.
  - apply (@parse_supply_prices_from_reply sample_runtime
             (always supply_no_price_text) sample_text sample_products []
             (SupplyData.mk
                [SupplyItem.mk (lit "Slip") (lit "S") 5 0%float 0%float])).
    vm_compute. reflexivity.
  - apply (@parse_supply_prices_from_reply sample_runtime
             (always supply_negative_price_text) sample_text sample_products
             []
             (SupplyData.mk
                [SupplyItem.mk (lit "Slip") (lit "S") 5 (-5)%float
                   (-1)%float])).
    vm_compute. reflexivity.
Defined.

(** C6, as the specification has it, fails: a reply with negative prices
    is a success, and the prices of the item are below 0. *)
Lemma parse_supply_accepts_negative_price :
  result_of (@parse_supply sample_runtime (always supply_negative_price_text)
               sample_text sample_products [])
  = Returned
      (Some (SupplyData.mk
               [SupplyItem.mk (lit "Slip") (lit "S") 5
                  (-5)%float (-1)%float]))
  /\ PrimFloat.leb 0 (-5)%float = false
  /\ PrimFloat.leb 0 (-1)%float = false.
Proof. repeat split; vm_compute; reflexivity. Qed.

(** *** parse_preorder *)

(** C7, as the code has it.  [parse_preorder] takes the text alone: its
    result is read off the reply to the one request built from the text,
    which carries no product list.  A successful result holds the client
    name and the item names of the reply as they are.  When the reply has
    no client name the method returns [None]; an empty items array is
    accepted, and [None] names no failure kind. *)
Theorem parse_preorder_as_stated `{PyRuntime} (create : Service)
  (text : pystr) (log : Log) :
  result_of (parse_preorder create text log)
  = Returned (extracted validate_PreorderData
                (create (mkRequest gpt_4o_mini PreorderPrompt text
                           (Some preorder_data) 0)))
  /\ (forall r,
        result_of (parse_preorder create text log) = Returned (Some r) ->
        exists d l,
          reply_object (create (preorder_request text)) = Some d
          /\ dict_get d (lit "client_name")
             = Some (JStr (PreorderData.client_name r))
          /\ dict_get d (lit "items") = Some (JArr l)
          /\ Forall2 preorder_name_from l (PreorderData.items r))
  /\ (forall d,
        reply_object (create (preorder_request text)) = Some d ->
        dict_get d (lit "client_name") = None ->
        result_of (parse_preorder create text log) = Returned None).
Proof.
  rewrite parse_preorder_result. split; [reflexivity|]. split.
  - intros r [= E]. apply extracted_reply_object in E as (d & Hd & Hv).
    apply validate_PreorderData_Returned in Hv as (Hc & l & Hi & Hm).
    exists d, l. repeat split; try assumption.
    apply mapM_Forall2 in Hm. eapply Forall2_weaken; [exact Hm|].
    intros j it Hj. apply model_of_PreorderItem in Hj. tauto.
  - intros d Hd Hc. f_equal. apply reply_object_json in Hd.
    apply (extracted_None _ _ d Hd).
    intros r Hr. apply validate_PreorderData_Returned in Hr as (Hc' & _).
    congruence.
Qed.

Lemma parse_preorder_as_stated_witness :
  (exists d l,
     @reply_object sample_runtime
       (always preorder_ok_text (preorder_request sample_text)) = Some d
     /\ dict_get d (lit "client_name") = Some (JStr (lit "Anna"))
     /\ dict_get d (lit "items") = Some (JArr l)
     /\ Forall2 preorder_name_from l
          [PreorderItem.mk (lit "red top") 2 None])
  /\ result_of (@parse_preorder sample_runtime
                  (always preorder_no_client_text) sample_text [])
     = Returned None.
Proof.
  split.
  - apply (proj1 (proj2 (@parse_preorder_as_stated sample_runtime
                           (always preorder_ok_text) sample_text []))
             (PreorderData.mk (lit "Anna")
                [PreorderItem.mk (lit "red top") 2 None] None)).
    vm_compute. reflexivity.
  - apply (proj2 (proj2 (@parse_preorder_as_stated sample_runtime
                           (always preorder_no_client_text) sample_text []))
             [(lit "items", JArr []); (lit "notes", JNull)]).
    + vm_compute. reflexivity.
    + vm_compute. reflexivity.
Defined.

(** C7, as the specification has it, fails: a reply with a client name and
    an empty items array is a success with no items. *)
Lemma parse_preorder_accepts_empty_items :
  result_of (@parse_preorder sample_runtime (always preorder_empty_items_text)
               sample_text [])
  = Returned (Some (PreorderData.mk (lit "Anna") [] None)).
Proof. vm_compute. reflexivity. Qed.

(** *** parse_sale: the client name *)

(** C8, as the code has it.  In every successful [parse_sale] result the
    client name is the string the reply gives under client.name, which
    may be the empty string.  When the client object of the reply has no
    string under name (the key is absent, or its value is null or no
    string) the method returns [None]. *)
Theorem parse_sale_client_name_from_reply `{PyRuntime} (create : Service)
  (text current_date : pystr) (existing_products : list pystr) (log : Log) :
  (forall r,
     result_of (parse_sale create text current_date existing_products log)
     = Returned (Some r) ->
     exists c,
       reply_client
         (create (sale_request text current_date existing_products))
       = Some c
       /\ dict_get c (lit "name")
          = Some (JStr (ClientInfo.name (SaleData.client r))))
  /\ (forall c,
        reply_client
          (create (sale_request text current_date existing_products))
        = Some c ->
        (forall s, dict_get c (lit "name") <> Some (JStr s)) ->
        result_of (parse_sale create text current_date existing_products log)
        = Returned None).
Proof.
  rewrite parse_sale_result. split.
  - intros r [= E]. apply extracted_reply_object in E as (d & Hd & Hv).
    apply validate_SaleData_Returned in Hv as (_ & c & Hc & Hn).
    exists c. split; [|assumption].
    apply reply_object_json in Hd. unfold reply_client.
    rewrite Hd, Hc. reflexivity.
  - intros c Hc Hname. f_equal.
    apply reply_client_object in Hc as (d & Hd & Hc).
    apply reply_object_json in Hd.
    apply (extracted_None _ _ d Hd).
    intros r Hr. apply validate_SaleData_Returned in Hr as (_ & c' & Hc' & Hn).
    rewrite Hc in Hc'. injection Hc' as <-.
    exact (Hname _ Hn).
Qed.

Lemma parse_sale_client_name_from_reply_witness :
  (exists c,
     @reply_client sample_runtime
       (always sale_ok_text
          (sale_request sample_text sample_date sample_products))
     = Some c
     /\ dict_get c (lit "name") = Some (JStr (lit "Anna")))
  /\ result_of (@parse_sale sample_runtime (always sale_no_name_text)
                  sample_text sample_date sample_products [])
     = Returned None.
Proof.
  split.
  - apply (proj1 (@parse_sale_client_name_from_reply sample_runtime
                    (always sale_ok_text) sample_text sample_date
                    sample_products [])
             (SaleData.mk
                (ClientInfo.mk (lit "Anna") None None None)
                [SaleInfo.mk (lit "Top") (lit "M") 1 40%float] None)).
    vm_compute. reflexivity.
  - apply (proj2 (@parse_sale_client_name_from_reply sample_runtime
                    (always sale_no_name_text) sample_text sample_date
                    sample_products [])
             [(lit "instagram", JNull); (lit "telegram", JNull);
              (lit "notes", JNull)]).
    + vm_compute. reflexivity.
    + intros s. vm_compute. discriminate.
Defined.

(** C8, as the specification has it, fails: a reply whose client name is
    the empty string is a success, and the name of the result is empty. *)
Lemma parse_sale_accepts_empty_name :
  result_of (@parse_sale sample_runtime (always sale_empty_name_text)
               sample_text sample_date sample_products [])
  = Returned
      (Some (SaleData.mk
               (ClientInfo.mk [] None None None)
               [SaleInfo.mk (lit "Top") (lit "M") 1 40%float] None)).
Proof. vm_compute. reflexivity. Qed.

(** * Further properties of the service layer *)

(** ** What the classifier writes to the log *)

(** X1.  When the reply has a content, [classify_message] appends one
    INFO record for the token, also when the token is no label and the
    method falls back to supply; for a reply of ASCII code points the
    record holds the token stripped and lower-cased.  An ERROR record is
    written only when the call raised or the reply had no content to
    read.  The log held before is kept. *)
Theorem classify_message_log (create : Service) (text : pystr) (log : Log) :
  (forall token,
     reply_token (create (classify_request text)) = Some token ->
     exists c,
       log_of (classify_message create text log)
       = log ++ [(INFO, MsgClassified c)]
       /\ (forallb is_ascii token = true -> c = py_lower (py_strip token)))
  /\ (reply_token (create (classify_request text)) = None ->
      exists e,
        log_of (classify_message create text log)
        = log ++ [(ERROR, MsgClassificationFailed e)]).
Proof.
  unfold classify_message, try_except, bind, await, lift, logger_info,
    logger_error, ret, reply_token, log_of.
  destruct (create (classify_request text)) as [response|e]; simpl;
    [destruct (choices response) as [|choice rest]; simpl;
     [|destruct (content choice) as [tok|]; simpl]|];
    (split; [intros token Htok | intros Hnone]);
    first [ discriminate
          | injection Htok as <-; eexists; split; [reflexivity | auto]
          | eexists; reflexivity ].
Qed.

Lemma classify_message_log_witness :
  (exists c,
     log_of (classify_message (always (lit "Banana ")) sample_text [])
     = [(INFO, MsgClassified c)]
     /\ c = lit "banana")
  /\ exists e,
       log_of (classify_message unreachable sample_text [])
       = [(ERROR, MsgClassificationFailed e)].
Proof.
  split.
  - destruct (proj1 (classify_message_log (always (lit "Banana "))
                       sample_text []) (lit "Banana ") eq_refl)
      as (c & Hlog & Hc).
    exists c. split; [exact Hlog | apply Hc; reflexivity].
  - apply (proj2 (classify_message_log unreachable sample_text [])).
    reflexivity.
Defined.

(** ** What the extractors write to the log *)

(** X2.  A successful [parse_supply] appends to the log the number of
    items and then one record for each item, with its name, in the order
    of the result; a failed one appends a single ERROR record.  The log
    held before is kept. *)
Theorem parse_supply_log `{PyRuntime} (create : Service) (text : pystr)
  (existing_products : list pystr) (log : Log) :
  (forall r,
     result_of (parse_supply create text existing_products log)
     = Returned (Some r) ->
     log_of (parse_supply create text existing_products log)
     = log
       ++ (INFO, MsgParsedSupply (List.length (SupplyData.items r)))
          :: List.map
               (fun it => (INFO, MsgProductMatched (SupplyItem.name it)))
               (SupplyData.items r))
  /\ (result_of (parse_supply create text existing_products log)
      = Returned None ->
      exists e,
        log_of (parse_supply create text existing_products log)
        = log ++ [(ERROR, MsgSupplyFailed e)]).
Proof.
  unfold parse_supply, try_except, bind, await, lift, logger_info at 1,
    logger_error, ret, result_of, log_of.
  destruct (create (supply_request text existing_products))
    as [response|e]; simpl;
    [destruct (index0 (choices response)) as [choice|e]; simpl;
     [destruct (loads (content choice)) as [result|e]; simpl;
      [destruct (construct validate_SupplyData result) as [d|e]; simpl|]|]|];
    try (split; [intros r Hr; discriminate Hr
                | intros _; eexists; reflexivity]).
  rewrite for_each_logger_info. simpl. split.
  - intros r [= <-]. rewrite <- app_assoc. reflexivity.
  - discriminate.
Qed.

Lemma parse_supply_log_witness :
  log_of (@parse_supply sample_runtime (always supply_no_price_text)
            sample_text sample_products [])
  = [(INFO, MsgParsedSupply 1); (INFO, MsgProductMatched (lit "Slip"))]
  /\ exists e,
       log_of (@parse_supply sample_runtime unreachable sample_text
                 sample_products [])
       = [(ERROR, MsgSupplyFailed e)].
Proof.
  split.
  - apply (proj1 (@parse_supply_log sample_runtime
                    (always supply_no_price_text) sample_text
                    sample_products [])
             (SupplyData.mk
                [SupplyItem.mk (lit "Slip") (lit "S") 5 0%float 0%float])).
    vm_compute. reflexivity.
  - apply (proj2 (@parse_supply_log sample_runtime unreachable sample_text
                    sample_products [])).
    vm_compute. reflexivity.
Defined.

(** ** The fields of a record come from the reply unchanged *)

Section Fields.
Context `{PyRuntime}.

Lemma required_str (d : dict) (key s : pystr) :
  required d key validate_str = Returned s -> str_field_from d key s.
Proof.
  unfold required, str_field_from.
  destruct (dict_get d key) as [[]|]; simpl; try discriminate. congruence.
Qed.

Lemma with_default_opt_str (d : dict) (key : pystr) (o : option pystr) :
  with_default d key (optional validate_str) None = Returned o ->
  opt_str_field_from d key o.
Proof.
  unfold with_default, opt_str_field_from.
  destruct (dict_get d key) as [[]|]; simpl; try discriminate; congruence.
Qed.

Lemma required_quantity_int (d : dict) (q : Z) :
  required d (lit "quantity") (fun j => z <~ validate_int j ;; int_gt0 z)%py
  = Returned q -> int_field_from d (lit "quantity") q.
Proof.
  unfold required, int_field_from.
  destruct (dict_get d (lit "quantity")) as [[]|]; simpl;
    try discriminate; auto.
  intros Hq. apply int_gt0_Returned in Hq. tauto.
Qed.

Lemma required_int (d : dict) (key : pystr) (q : Z) :
  required d key validate_int = Returned q -> int_field_from d key q.
Proof.
  unfold required, int_field_from.
  destruct (dict_get d key) as [[]|]; simpl; try discriminate; auto.
  congruence.
Qed.

Lemma model_of_SupplyItem_from (j : json) (it : SupplyItem.t) :
  model_of validate_SupplyItem j = Returned it -> supply_item_from j it.
Proof.
  destruct j as [| | | | | |d]; try discriminate. simpl.
  unfold validate_SupplyItem, supply_item_from. intros Hv. inv_obind Hv.
  injection Hv as <-. simpl. exists d.
  auto using required_str, required_quantity_int.
Qed.

Lemma model_of_SaleInfo_from (j : json) (it : SaleInfo.t) :
  model_of validate_SaleInfo j = Returned it -> sale_item_from j it.
Proof.
  destruct j as [| | | | | |d]; try discriminate. simpl.
  unfold validate_SaleInfo, sale_item_from. intros Hv. inv_obind Hv.
  injection Hv as <-. simpl. exists d.
  auto using required_str, required_quantity_int.
Qed.

Lemma validate_SaleData_fields (d : dict) (r : SaleData.t) :
  validate_SaleData d = Returned r ->
  (exists c, dict_get d (lit "client") = Some (JObj c)
     /\ validate_ClientInfo c = Returned (SaleData.client r))
  /\ reminder_from d (SaleData.reminder r).
Proof.
  unfold validate_SaleData. intros Hv. inv_obind Hv.
  injection Hv as <-. simpl. split.
  - unfold required in E.
    destruct (dict_get d (lit "client")) as [[| | | | | |c]|];
      try discriminate.
    exists c. auto.
  - unfold with_default in E1. unfold reminder_from.
    destruct (dict_get d (lit "reminder")) as [[| | | | | |rd]|];
      simpl in E1; try discriminate; try congruence.
    inv_obind E1. injection E1 as <-.
    unfold validate_ReminderInfo in E2. inv_obind E2. injection E2 as <-.
    eexists. split; [reflexivity|]. simpl.
    auto using required_str, required_int.
Qed.

Lemma validate_ClientInfo_fields (c : dict) (ci : ClientInfo.t) :
  validate_ClientInfo c = Returned ci ->
  str_field_from c (lit "name") (ClientInfo.name ci)
  /\ opt_str_field_from c (lit "instagram") (ClientInfo.instagram ci)
  /\ opt_str_field_from c (lit "telegram") (ClientInfo.telegram ci)
  /\ opt_str_field_from c (lit "notes") (ClientInfo.notes ci).
Proof.
  unfold validate_ClientInfo. intros Hv. inv_obind Hv.
  injection Hv as <-. simpl.
  auto using required_str, with_default_opt_str.
Qed.

End Fields.

(** X3.  [parse_supply] does no matching or renaming of its own: in a
    successful result the items are those of the reply, in the reply's
    order, each with the name and the size the reply states and, where the
    reply writes the quantity as an integer, that quantity. *)
Theorem parse_supply_items_as_replied `{PyRuntime} (create : Service)
  (text : pystr) (existing_products : list pystr) (log : Log)
  (r : SupplyData.t) :
  result_of (parse_supply create text existing_products log)
  = Returned (Some r) ->
  exists l,
    reply_items (create (supply_request text existing_products)) = Some l
    /\ Forall2 supply_item_from l (SupplyData.items r).
Proof.
  intros Hr. apply parse_supply_success in Hr as (l & Hl & Hall).
  exists l. split; [assumption|].
  eapply Forall2_weaken; [exact Hall|].
  intros j it. apply model_of_SupplyItem_from.
Qed.

Lemma parse_supply_items_as_replied_witness :
  exists l,
    @reply_items sample_runtime
      (always supply_no_price_text
         (supply_request sample_text sample_products))
    = Some l
    /\ Forall2 supply_item_from l
         [SupplyItem.mk (lit "Slip") (lit "S") 5 0%float 0%float].
Proof.
  apply (@parse_supply_items_as_replied sample_runtime
           (always supply_no_price_text) sample_text sample_products []
           (SupplyData.mk
              [SupplyItem.mk (lit "Slip") (lit "S") 5 0%float 0%float])).
  vm_compute. reflexivity.
Defined.

Lemma parse_sale_success `{PyRuntime} (create : Service)
  (text current_date : pystr) (existing_products : list pystr) (log : Log)
  (r : SaleData.t) :
  result_of (parse_sale create text current_date existing_products log)
  = Returned (Some r) ->
  exists d,
    reply_object (create (sale_request text current_date existing_products))
    = Some d
    /\ validate_SaleData d = Returned r.
Proof.
  rewrite parse_sale_result. intros [= E].
  apply extracted_reply_object in E. exact E.
Qed.

(** X4.  In a successful [parse_sale] result the items are those of the
    reply, in the reply's order, each with the item name and the size the
    reply states and, where the reply writes the quantity as an integer,
    that quantity. *)
Theorem parse_sale_items_as_replied `{PyRuntime} (create : Service)
  (text current_date : pystr) (existing_products : list pystr) (log : Log)
  (r : SaleData.t) :
  result_of (parse_sale create text current_date existing_products log)
  = Returned (Some r) ->
  exists l,
    reply_items (create (sale_request text current_date existing_products))
    = Some l
    /\ Forall2 sale_item_from l (SaleData.items r).
Proof.
  intros Hr. apply parse_sale_success in Hr as (d & Hd & Hv).
  apply validate_SaleData_Returned in Hv as ((l & Hi & Hm) & _).
  exists l. split; [eapply object_reply_items; eassumption|].
  apply mapM_Forall2 in Hm. eapply Forall2_weaken; [exact Hm|].
  intros j it. apply model_of_SaleInfo_from.
Qed.

Lemma parse_sale_items_as_replied_witness :
  exists l,
    @reply_items sample_runtime
      (always sale_ok_text
         (sale_request sample_text sample_date sample_products))
    = Some l
    /\ Forall2 sale_item_from l
         [SaleInfo.mk (lit "Top") (lit "M") 1 40%float].
Proof.
  apply (@parse_sale_items_as_replied sample_runtime (always sale_ok_text)
           sample_text sample_date sample_products []
           (SaleData.mk (ClientInfo.mk (lit "Anna") None None None)
              [SaleInfo.mk (lit "Top") (lit "M") 1 40%float] None)).
  vm_compute. reflexivity.
Defined.


(** X6.  The instagram, telegram and notes fields of the client of a
    successful [parse_sale] result are the strings of the reply as they
    are (the method removes no prefix from them), and [None] when the key
    is absent or null. *)
Theorem parse_sale_client_fields_from_reply `{PyRuntime} (create : Service)
  (text current_date : pystr) (existing_products : list pystr) (log : Log)
  (r : SaleData.t) :
  result_of (parse_sale create text current_date existing_products log)
  = Returned (Some r) ->
  exists c,
    reply_client (create (sale_request text current_date existing_products))
    = Some c
    /\ opt_str_field_from c (lit "instagram")
         (ClientInfo.instagram (SaleData.client r))
    /\ opt_str_field_from c (lit "telegram")
         (ClientInfo.telegram (SaleData.client r))
    /\ opt_str_field_from c (lit "notes")
         (ClientInfo.notes (SaleData.client r)).
Proof.
  intros Hr. apply parse_sale_success in Hr as (d & Hd & Hv).
  apply validate_SaleData_fields in Hv as ((c & Hc & Hci) & _).
  exists c. split.
  - apply reply_object_json in Hd. unfold reply_client.
    rewrite Hd, Hc. reflexivity.
  - apply validate_ClientInfo_fields in Hci. tauto.
Qed.

Lemma parse_sale_client_fields_from_reply_witness :
  exists c,
    @reply_client sample_runtime
      (always sale_ok_text
         (sale_request sample_text sample_date sample_products))
    = Some c
    /\ opt_str_field_from c (lit "instagram") None
    /\ opt_str_field_from c (lit "telegram") None
    /\ opt_str_field_from c (lit "notes") None.
Proof.
  apply (@parse_sale_client_fields_from_reply sample_runtime
           (always sale_ok_text) sample_text sample_date sample_products []
           (SaleData.mk (ClientInfo.mk (lit "Anna") None None None)
              [SaleInfo.mk (lit "Top") (lit "M") 1 40%float] None)).
  vm_compute. reflexivity.
Defined.

(** ** Edge cases of the sale and client-edit extractors *)

(** X7.  [parse_sale] accepts a sale without items: a reply with a named
    client, an empty items array and no reminder is a success with an
    empty items list. *)
Theorem parse_sale_accepts_no_items `{PyRuntime} (create : Service)
  (text current_date : pystr) (existing_products : list pystr) (log : Log)
  (d : dict) (s : pystr) :
  reply_object (create (sale_request text current_date existing_products))
  = Some d ->
  dict_get d (lit "client") = Some (JObj [(lit "name", JStr s)]) ->
  dict_get d (lit "items") = Some (JArr []) ->
  dict_get d (lit "reminder") = None ->
  result_of (parse_sale create text current_date existing_products log)
  = Returned (Some (SaleData.mk (ClientInfo.mk s None None None) [] None)).
Proof.
  intros Hd Hc Hi Hr. rewrite parse_sale_result. f_equal.
  apply reply_object_json in Hd. unfold extracted. rewrite Hd. simpl.
  unfold validate_SaleData, required, with_default.
  rewrite Hc, Hi, Hr. reflexivity.
Qed.

Lemma parse_sale_accepts_no_items_witness :
  result_of (@parse_sale extra_runtime (always sale_no_items_text)
               sample_text sample_date sample_products [])
  = Returned
      (Some (SaleData.mk (ClientInfo.mk (lit "Anna") None None None) []
               None)).
Proof.
  apply (@parse_sale_accepts_no_items extra_runtime
           (always sale_no_items_text) sample_text sample_date
           sample_products []
           [(lit "client", JObj [(lit "name", JStr (lit "Anna"))]);
            (lit "items", JArr [])]
           (lit "Anna")).
  - vm_compute. reflexivity.
  - vm_compute. reflexivity.
  - vm_compute. reflexivity.
  - vm_compute. reflexivity.
Defined.

(** X8.  [parse_client_edit] succeeds exactly when the reply is a JSON
    object that holds a string under client_name and a string under
    notes, and the record carries both strings as they are; in particular
    it fails when notes is absent or null, and accepts empty strings. *)
Theorem parse_client_edit_succeeds_iff `{PyRuntime} (create : Service)
  (text : pystr) (log : Log) (r : ClientEditData.t) :
  result_of (parse_client_edit create text log) = Returned (Some r)
  <-> exists d,
        reply_object (create (client_edit_request text)) = Some d
        /\ str_field_from d (lit "client_name") (ClientEditData.client_name r)
        /\ str_field_from d (lit "notes") (ClientEditData.notes r).
Proof.
  rewrite parse_client_edit_result. split.
  - intros [= E]. apply extracted_reply_object in E as (d & Hd & Hv).
    exists d. split; [assumption|].
    unfold validate_ClientEditData in Hv. inv_obind Hv.
    injection Hv as <-. simpl. auto using required_str.
  - intros (d & Hd & Hc & Hn). f_equal.
    apply reply_object_json in Hd. unfold extracted. rewrite Hd. simpl.
    unfold validate_ClientEditData, required, str_field_from in *.
    rewrite Hc, Hn. simpl. destruct r; reflexivity.
Qed.

Lemma parse_client_edit_succeeds_iff_witness :
  result_of (@parse_client_edit extra_runtime (always client_edit_ok_text)
               sample_text [])
  = Returned (Some (ClientEditData.mk (lit "Anna") (lit "likes red"))).
Proof.
  apply (proj2 (@parse_client_edit_succeeds_iff extra_runtime
                  (always client_edit_ok_text) sample_text []
                  (ClientEditData.mk (lit "Anna") (lit "likes red")))).
  exists [(lit "client_name", JStr (lit "Anna"));
          (lit "notes", JStr (lit "likes red"))].
  repeat split; vm_compute; reflexivity.
Defined.

(** ** Keys the models do not declare *)

Lemma dict_get_other (k key : pystr) (v : json) (d : dict) :
  str_eqb k key = false -> dict_get ((k, v) :: d) key = dict_get d key.
Proof. simpl. intros ->. reflexivity. Qed.

Ltac other_keys H :=
  unfold str_in in H; simpl in H;
  repeat match type of H with
  | (_ || _)%bool = false =>
      let H1 := fresh "Hk" in apply orb_false_iff in H as [H1 H]
  end;
  unfold required, with_default;
  repeat match goal with
  | Hk : str_eqb ?k ?key = false |- _ =>
      rewrite !(dict_get_other k key _ _ Hk); clear Hk
  end.

(** X9.  A key of the reply that is no field of the model is ignored: it
    changes neither whether the reply validates nor the record built,
    for each of the four top-level models. *)
Theorem undeclared_key_ignored `{PyRuntime} (k : pystr) (v : json)
  (d : dict) :
  (str_in k SupplyData_fields = false ->
   validate_SupplyData ((k, v) :: d) = validate_SupplyData d)
  /\ (str_in k SaleData_fields = false ->
      validate_SaleData ((k, v) :: d) = validate_SaleData d)
  /\ (str_in k ClientEditData_fields = false ->
      validate_ClientEditData ((k, v) :: d) = validate_ClientEditData d)
  /\ (str_in k PreorderData_fields = false ->
      validate_PreorderData ((k, v) :: d) = validate_PreorderData d).
Proof.
  repeat split; intros Hk.
  - unfold validate_SupplyData. other_keys Hk. reflexivity.
  - unfold validate_SaleData. other_keys Hk. reflexivity.
  - unfold validate_ClientEditData. other_keys Hk. reflexivity.
  - unfold validate_PreorderData. other_keys Hk. reflexivity.
Qed.

Lemma undeclared_key_ignored_witness :
  validate_ClientEditData
    [(lit "phone", JStr (lit "555"));
     (lit "client_name", JStr (lit "Anna"));
     (lit "notes", JStr (lit "likes red"))]
  = validate_ClientEditData
      [(lit "client_name", JStr (lit "Anna"));
       (lit "notes", JStr (lit "likes red"))].
Proof.
  apply (proj1 (proj2 (proj2 (@undeclared_key_ignored extra_runtime
                                (lit "phone") (JStr (lit "555"))
                                [(lit "client_name", JStr (lit "Anna"));
                                 (lit "notes", JStr (lit "likes red"))])))).
  vm_compute. reflexivity.
Defined.

(** ** The product list in the prompt *)

Lemma products_context_cons (p : pystr) (l : list pystr) :
  exists rest, products_context (p :: l) = 45%N :: 32%N :: rest.
Proof.
  unfold products_context. simpl.
  match goal with
  | |- context [match ?m with [] => _ | _ :: _ => _ end] => destruct m
  end; eexists; reflexivity.
Qed.

(** X10.  The text [No existing products] stands in the prompt exactly
    when the product list is empty: no list of products, whatever their
    names, yields it. *)
Theorem products_context_empty_marker (existing_products : list pystr) :
  products_context existing_products = lit "No existing products"
  <-> existing_products = [].
Proof.
  split.
  - destruct existing_products as [|p l]; [reflexivity|].
    destruct (products_context_cons p l) as [rest ->].
    vm_compute. discriminate.
  - intros ->. reflexivity.
Qed.

(** X11.  The prompt does not keep product names apart: a single product
    whose name holds a line break followed by a dash and a space gives the
    same request, and so the same result, as two products. *)
Theorem products_context_line_break `{PyRuntime} (create : Service)
  (text p q : pystr) (log : Log) :
  supply_request text [p ++ [10%N] ++ lit "- " ++ q]
  = supply_request text [p; q]
  /\ result_of (parse_supply create text [p ++ [10%N] ++ lit "- " ++ q] log)
     = result_of (parse_supply create text [p; q] log).
Proof.
  assert (E : supply_request text [p ++ [10%N] ++ lit "- " ++ q]
              = supply_request text [p; q]).
  { unfold supply_request, products_context. simpl. reflexivity. }
  split; [exact E|]. rewrite !parse_supply_result, E. reflexivity.
Qed.

(** ** transcribe_audio *)

(** X12.  [transcribe_audio] returns the text of the transcript whole,
    exactly when the file opened and the call returned a transcript whose
    text is a string; the log then gets the first 100 code points of it.
    In every other case, also when the call returned a transcript whose
    text is [None], the method returns [None] and the log gets one ERROR
    record; no exception leaves the method. *)
Theorem transcribe_audio_result {File : Type} (open_rb : FileSystem File)
  (create : Transcriber File) (audio_file_path : pystr) (log : Log) :
  exists entry r,
    transcribe_audio open_rb create audio_file_path log
    = (log ++ [entry], Returned r)
    /\ (forall text,
          r = Some text
          <-> exists f, open_rb audio_file_path = Returned f
                /\ create f = Returned (Some text))
    /\ (forall text,
          r = Some text ->
          entry = (INFO, MsgTranscriptionSuccessful (firstn 100 text)))
    /\ (r = None -> exists e, entry = (ERROR, MsgTranscriptionFailed e))
    /\ (forall f,
          open_rb audio_file_path = Returned f ->
          create f = Returned None ->
          r = None /\ entry = (ERROR, MsgTranscriptionFailed TypeError)).
Proof.
  unfold transcribe_audio, try_except, bind, lift, logger_info,
    logger_error, ret, slice_100.
  destruct (open_rb audio_file_path) as [f|e];
    [destruct (create f) as [[text|]|e] eqn:Ec|];
    do 2 eexists; (split; [reflexivity|]);
    (split; [|split; [|split; [|]]]).
  - intros t. split.
    + intros [= <-]. eauto.
    + intros (f' & [= <-] & Hc). congruence.
  - intros t [= <-]. reflexivity.
  - discriminate.
  - intros f' [= <-] Hc. congruence.
  - intros t. split; [discriminate|].
    intros (f' & [= <-] & Hc). congruence.
  - discriminate.
  - eauto.
  - auto.
  - intros t. split; [discriminate|].
    intros (f' & [= <-] & Hc). congruence.
  - discriminate.
  - eauto.
  - intros f' [= <-] Hc. congruence.
  - intros t. split; [discriminate|]. intros (f' & Hf & _). discriminate.
  - discriminate.
  - eauto.
  - intros f' Hf. discriminate.
Qed.

(** ** Config *)

Lemma missing_filter (c : Config.t) :
  Config.missing c
  = List.map fst
      (List.filter (fun p => Config.falsy (snd p))
         (Config.required_variables c)).
Proof.
  unfold Config.missing, Config.required_variables. simpl.
  destruct (Config.falsy (Config.BOT_TOKEN c)),
    (Config.falsy (Config.ALLOWED_USER_IDS c)),
    (Config.falsy (Config.OPENAI_API_KEY c)),
    (Config.falsy (Config.GOOGLE_SHEETS_CREDENTIALS_BASE64 c)),
    (Config.falsy (Config.GOOGLE_SHEET_KEY c)); reflexivity.
Qed.

Lemma missing_nil (c : Config.t) :
  Config.missing c = []
  <-> Forall (fun p => Config.falsy (snd p) = false)
        (Config.required_variables c).
Proof.
  rewrite missing_filter.
  induction (Config.required_variables c) as [|[n v] l IH]; simpl.
  - split; [constructor | reflexivity].
  - destruct (Config.falsy v) eqn:E; simpl.
    + split; [discriminate|]. intros Hall. inversion Hall; subst.
      simpl in *. congruence.
    + rewrite IH. split; [intros Hall; constructor; assumption|].
      intros Hall. inversion Hall; assumption.
Qed.

Section ConfigFacts.
Variable py_int : pystr -> option Z.

Lemma check_ints_Ok (l : list pystr) :
  Config.check_ints py_int l = Config.Ok tt
  <-> Forall (fun u => py_int u <> None) l.
Proof.
  induction l as [|u l IH]; simpl.
  - split; [constructor | reflexivity].
  - destruct (py_int u) as [z|] eqn:E.
    + rewrite IH. split.
      * intros Hall. constructor; [congruence | assumption].
      * intros Hall. inversion Hall; assumption.
    + split; [discriminate|]. intros Hall. inversion Hall; subst.
      congruence.
Qed.

Lemma check_ints_raises (l : list pystr) (e : Config.error) :
  Config.check_ints py_int l = Config.Raise e ->
  exists s, e = Config.InvalidLiteral s.
Proof.
  induction l as [|u l IH]; simpl; [discriminate|].
  destruct (py_int u); [assumption|]. intros [= <-]. eauto.
Qed.

Lemma ints_of_check (l : list pystr) :
  Config.check_ints py_int l = Config.Ok tt ->
  exists ids,
    Config.ints_of py_int l = Config.Ok ids
    /\ Forall2 (fun u z => py_int u = Some z) l ids.
Proof.
  induction l as [|u l IH]; simpl.
  - intros _. exists []. split; [reflexivity | constructor].
  - destruct (py_int u) as [z|] eqn:E; [|discriminate].
    intros Hc. destruct (IH Hc) as (ids & -> & Hall).
    exists (z :: ids). split; [reflexivity | constructor; assumption].
Qed.

End ConfigFacts.

(** X13.  [Config.validate] returns exactly when each of the five
    required variables is set to a non-empty string and every piece of
    ALLOWED_USER_IDS between commas, once stripped, is accepted by [int];
    in every other case it raises. *)
Theorem validate_succeeds_iff (py_int : pystr -> option Z) (c : Config.t) :
  snd (Config.validate py_int c) = Config.Ok tt
  <-> Forall (fun p => Config.falsy (snd p) = false)
        (Config.required_variables c)
      /\ exists s,
           Config.ALLOWED_USER_IDS c = Some s
           /\ Forall (fun piece => py_int (py_strip piece) <> None)
                (split_comma s).
Proof.
  unfold Config.validate. rewrite <- missing_nil.
  destruct (Config.missing c) as [|m ms] eqn:Em.
  - unfold Config.stripped_ids.
    destruct (Config.ALLOWED_USER_IDS c) as [s|] eqn:Es.
    + destruct (Config.check_ints py_int (List.map py_strip (split_comma s)))
        as [[]|e] eqn:Ec.
      * apply check_ints_Ok in Ec. rewrite Forall_map in Ec.
        simpl. split; [eauto | reflexivity].
      * assert (Hno : ~ Forall (fun piece => py_int (py_strip piece) <> None)
                        (split_comma s)).
        { intros Hall.
          apply (Forall_map py_strip (fun u => py_int u <> None)) in Hall.
          apply check_ints_Ok in Hall. congruence. }
        apply check_ints_raises in Ec as [u ->]. simpl.
        split; [discriminate|]. intros (_ & s' & [= <-] & Hall).
        contradiction.
    + simpl. split; [discriminate|]. intros (_ & s & Hs & _). discriminate.
  - simpl. split; [discriminate|]. intros [Hnil _]. discriminate.
Qed.

Lemma validate_succeeds_iff_witness :
  snd (Config.validate ascii_int sample_config) = Config.Ok tt.
Proof.
  apply (proj2 (validate_succeeds_iff ascii_int sample_config)).
  split.
  - repeat constructor.
  - exists (lit "12, 34 ,56"). split; [reflexivity|].
    repeat constructor; vm_compute; discriminate.
Defined.

(** X14.  When a required variable is unset or empty, [Config.validate]
    raises the error that names the missing variables: exactly those that
    are unset or empty, in the order BOT_TOKEN, ALLOWED_USER_IDS,
    OPENAI_API_KEY, GOOGLE_SHEETS_CREDENTIALS_BASE64, GOOGLE_SHEET_KEY,
    joined by a comma and a space.  This comes before the test of the
    user ids, whatever they are. *)
Theorem validate_reports_missing (py_int : pystr -> option Z)
  (c : Config.t) :
  Exists (fun p => Config.falsy (snd p) = true)
    (Config.required_variables c) ->
  Config.validate py_int c
  = ([], Config.Raise
           (Config.ValueError
              (lit "Missing required environment variables: "
               ++ str_join (lit ", ")
                    (List.map fst
                       (List.filter (fun p => Config.falsy (snd p))
                          (Config.required_variables c)))))).
Proof.
  intros Hex. unfold Config.validate. rewrite <- missing_filter.
  destruct (Config.missing c) as [|m ms] eqn:Em; [|reflexivity].
  apply missing_nil in Em. apply Exists_exists in Hex as (p & Hin & Hp).
  rewrite Forall_forall in Em. rewrite (Em p Hin) in Hp. discriminate.
Qed.

Lemma validate_reports_missing_witness :
  Config.validate ascii_int
    (Config.mk (Some (lit "token")) (Some (lit "12,x")) None
       (Some (lit "e30=")) (Some []) (lit "Europe/Moscow"))
  = ([], Config.Raise
           (Config.ValueError
              (lit "Missing required environment variables: OPENAI_API_KEY, GOOGLE_SHEET_KEY"))).
Proof.
  apply (validate_reports_missing ascii_int
           (Config.mk (Some (lit "token")) (Some (lit "12,x")) None
              (Some (lit "e30=")) (Some []) (lit "Europe/Moscow"))).
  apply Exists_cons_tl, Exists_cons_tl, Exists_cons_hd. reflexivity.
Defined.

(** X15.  Once [Config.validate] has returned, [is_user_allowed] does not
    raise, and it answers true exactly for the integers that [int] reads
    from a stripped piece of ALLOWED_USER_IDS. *)
Theorem validate_then_is_user_allowed (py_int : pystr -> option Z)
  (c : Config.t) (user_id : Z) :
  snd (Config.validate py_int c) = Config.Ok tt ->
  exists s b,
    Config.ALLOWED_USER_IDS c = Some s
    /\ Config.is_user_allowed py_int c user_id = Config.Ok b
    /\ (b = true
        <-> exists piece,
              In piece (split_comma s)
              /\ py_int (py_strip piece) = Some user_id).
Proof.
  intros Hv. apply validate_succeeds_iff in Hv as (_ & s & Hs & Hall).
  apply (Forall_map py_strip (fun u => py_int u <> None)) in Hall.
  apply check_ints_Ok in Hall.
  apply ints_of_check in Hall as (ids & Hids & Hall).
  exists s, (existsb (Z.eqb user_id) ids). split; [assumption|].
  unfold Config.is_user_allowed, Config.get_allowed_user_ids,
    Config.stripped_ids.
  rewrite Hs, Hids. split; [reflexivity|].
  rewrite existsb_exists. clear Hids Hs.
  remember (List.map py_strip (split_comma s)) as us eqn:Eus.
  revert Eus. generalize (split_comma s) as pieces.
  induction Hall as [|u z us ids Huz _ IH]; intros pieces Eus.
  - destruct pieces; [|discriminate]. split.
    + intros (x & [] & _).
    + intros (piece & [] & _).
  - destruct pieces as [|piece pieces]; [discriminate|].
    injection Eus as -> Eus. specialize (IH pieces Eus). split.
    + intros (x & [<- | Hin] & Hx).
      * apply Z.eqb_eq in Hx. subst. exists piece. split; [left; auto|auto].
      * destruct (proj1 IH) as (pc & Hpc & Hpi); [eauto|].
        exists pc. split; [right; assumption | assumption].
    + intros (pc & [<- | Hin] & Hpi).
      * exists z. split; [left; reflexivity|].
        apply Z.eqb_eq. congruence.
      * destruct (proj2 IH) as (x & Hx & Hxe); [eauto|].
        exists x. split; [right; assumption | assumption].
Qed.

Lemma validate_then_is_user_allowed_witness :
  exists s b,
    Config.ALLOWED_USER_IDS sample_config = Some s
    /\ Config.is_user_allowed ascii_int sample_config 34 = Config.Ok b
    /\ (b = true
        <-> exists piece,
              In piece (split_comma s)
              /\ ascii_int (py_strip piece) = Some 34).
Proof.
  apply (validate_then_is_user_allowed ascii_int sample_config 34).
  vm_compute. reflexivity.
Defined.

(** ** The reminder of a sale *)

Lemma validate_SaleData_with_reminder `{PyRuntime} (d rd : dict) (n : Z)
  (t : pystr) (r : SaleData.t) :
  dict_get rd (lit "days_from_now") = Some (JInt n) ->
  dict_get rd (lit "text") = Some (JStr t) ->
  validate_SaleData d = Returned r ->
  validate_SaleData ((lit "reminder", JObj rd) :: d)
  = Returned (SaleData.mk (SaleData.client r) (SaleData.items r)
                (Some (ReminderInfo.mk n t))).
Proof.
  intros Hdays Htext Hv. unfold validate_SaleData in *.
  unfold required, with_default in *.
  rewrite (dict_get_other (lit "reminder") (lit "client") _ d eq_refl).
  rewrite (dict_get_other (lit "reminder") (lit "items") _ d eq_refl).
  inv_obind Hv. injection Hv as <-.
  replace (dict_get ((lit "reminder", JObj rd) :: d) (lit "reminder"))
    with (Some (JObj rd)) by reflexivity.
  cbn [obind optional model_of SaleData.client SaleData.items].
  unfold validate_ReminderInfo, required.
  rewrite Hdays, Htext. reflexivity.
Qed.

(** X5.  The reminder of a successful [parse_sale] result is [None] when
    the reply has no reminder or a null one, and otherwise holds the text
    of the reply's reminder and, where written as an integer, its number
    of days.  The model puts no bound on the number of days: when the
    rest of a reply validates, a reminder object with any integer, also
    zero or negative, and a text is accepted and returned. *)
Theorem parse_sale_reminder_from_reply `{PyRuntime} (create : Service)
  (text current_date : pystr) (existing_products : list pystr) (log : Log) :
  (forall r,
     result_of (parse_sale create text current_date existing_products log)
     = Returned (Some r) ->
     exists d,
       reply_object
         (create (sale_request text current_date existing_products))
       = Some d
       /\ reminder_from d (SaleData.reminder r))
  /\ (forall d rd n t r,
        reply_object
          (create (sale_request text current_date existing_products))
        = Some ((lit "reminder", JObj rd) :: d) ->
        dict_get rd (lit "days_from_now") = Some (JInt n) ->
        dict_get rd (lit "text") = Some (JStr t) ->
        validate_SaleData d = Returned r ->
        result_of (parse_sale create text current_date existing_products log)
        = Returned
            (Some (SaleData.mk (SaleData.client r) (SaleData.items r)
                     (Some (ReminderInfo.mk n t))))).
Proof.
  split.
  - intros r Hr. apply parse_sale_success in Hr as (d & Hd & Hv).
    exists d. split; [assumption|].
    apply validate_SaleData_fields in Hv. tauto.
  - intros d rd n t r Hd Hdays Htext Hv.
    rewrite parse_sale_result. f_equal.
    apply reply_object_json in Hd. unfold extracted. rewrite Hd.
    cbn [obind construct].
    rewrite (validate_SaleData_with_reminder d rd n t r Hdays Htext Hv).
    reflexivity.
Qed.

Lemma parse_sale_reminder_from_reply_witness :
  (exists d,
     @reply_object extra_runtime
       (always sale_no_items_text
          (sale_request sample_text sample_date sample_products))
     = Some d
     /\ @reminder_from d None)
  /\ result_of (@parse_sale extra_runtime (always sale_reminder_text)
                  sample_text sample_date sample_products [])
     = Returned
         (Some (SaleData.mk (ClientInfo.mk (lit "Anna") None None None) []
                  (Some (ReminderInfo.mk (-3) (lit "call"))))).
Proof.
  split.
  - apply (proj1 (@parse_sale_reminder_from_reply extra_runtime
                    (always sale_no_items_text) sample_text sample_date
                    sample_products [])
             (SaleData.mk (ClientInfo.mk (lit "Anna") None None None) []
                None)).
    vm_compute. reflexivity.
  - apply (proj2 (@parse_sale_reminder_from_reply extra_runtime
                    (always sale_reminder_text) sample_text sample_date
                    sample_products [])
             [(lit "client", JObj [(lit "name", JStr (lit "Anna"))]);
              (lit "items", JArr [])]
             [(lit "days_from_now", JInt (-3)); (lit "text", JStr (lit "call"))]
             (-3) (lit "call")
             (SaleData.mk (ClientInfo.mk (lit "Anna") None None None) []
                None)).
    + vm_compute. reflexivity.
    + vm_compute. reflexivity.
    + vm_compute. reflexivity.
    + vm_compute. reflexivity.
Defined.

(** ** The failure value of the extractors *)

(** C5, as the specification has it, fails: the failure value tells no
    kind.  An unreachable service and a reply that violates the model
    give the same value, [None]. *)
Lemma extractor_failures_share_one_value :
  result_of (@parse_supply sample_runtime unreachable sample_text
               sample_products [])
  = Returned None
  /\ result_of (@parse_supply sample_runtime
                  (always supply_zero_quantity_text) sample_text
                  sample_products [])
     = Returned None
  /\ ~ (exists kind : Outcome (option SupplyData.t) -> FailureKind,
          kind (result_of (@parse_supply sample_runtime unreachable
                             sample_text sample_products []))
          = ServiceError
          /\ kind (result_of (@parse_supply sample_runtime
                                (always supply_zero_quantity_text)
                                sample_text sample_products []))
             = SchemaViolation).
Proof.
  assert (E1 : result_of (@parse_supply sample_runtime unreachable
                            sample_text sample_products [])
               = Returned None) by (vm_compute; reflexivity).
  assert (E2 : result_of (@parse_supply sample_runtime
                            (always supply_zero_quantity_text) sample_text
                            sample_products [])
               = Returned None) by (vm_compute; reflexivity).
  rewrite E1, E2. repeat split.
  intros (kind & H1 & H2). congruence.
Qed.
